(** * deadline-guard: urgency classifier, recurrence scheduler, reminder
    dispatcher and billing webhook, embedded in Rocq.

    Sources:
    - src/src/lib/deadline-utils.ts                      (classifier, scheduler)
    - src/supabase/functions/send-deadline-reminders/index.ts (dispatcher)
    - src/supabase/functions/stripe-webhook/index.ts     (billing webhook)
    - src/supabase/migrations/20260119_production_ready.sql   (schema, trigger)
    - src/supabase/functions/create-checkout-session/index.ts (rate-limit SQL,
                                                          checkout session)
    - src/src/hooks/useDeadlines.ts                      (client plan limits)

    Instants (JS [Date] values) are integers of milliseconds since the epoch.
    The local time zone is a fixed offset [tz] in milliseconds
    (local wall clock = UTC + tz). Calendar dates are proleptic Gregorian
    (year, month 1..12, day). *)

From Stdlib Require Import ZArith Lia QArith Sorting.Sorted Sorting.Permutation.
From stdpp Require Import base gmap strings list pretty.

Open Scope Z_scope.

(* ================================================================== *)
(** ** Calendar arithmetic *)

Record date := mkDate { year : Z; month : Z; day : Z }.

Definition MS_PER_DAY : Z := 1000 * 60 * 60 * 24.
Definition MS_PER_HOUR : Z := 1000 * 60 * 60.

Definition is_leap (y : Z) : bool :=
  ((y mod 4 =? 0) && negb (y mod 100 =? 0)) || (y mod 400 =? 0).

Definition days_in_month (y m : Z) : Z :=
  if (m =? 2) then (if is_leap y then 29 else 28)
  else if (m =? 4) || (m =? 6) || (m =? 9) || (m =? 11) then 30
  else 31.

Definition valid_date (d : date) : Prop :=
  1 <= month d <= 12 /\ 1 <= day d <= days_in_month (year d) (month d).

(** Day number of a civil date, day 0 = 1970-01-01 (the epoch day of JS). *)
Definition days_from_civil (d : date) : Z :=
  let y' := if month d <=? 2 then year d - 1 else year d in
  let era := y' / 400 in
  let yoe := y' - era * 400 in
  let mp := (month d + 9) mod 12 in
  let doy := (153 * mp + 2) / 5 + day d - 1 in
  let doe := yoe * 365 + yoe / 4 - yoe / 100 + doy in
  era * 146097 + doe - 719468.

(** Inverse of [days_from_civil]. *)
Definition civil_from_days (z : Z) : date :=
  let z' := z + 719468 in
  let era := z' / 146097 in
  let doe := z' - era * 146097 in
  let yoe := (doe - doe / 1460 + doe / 36524 - doe / 146096) / 365 in
  let y := yoe + era * 400 in
  let doy := doe - (365 * yoe + yoe / 4 - yoe / 100) in
  let mp := (5 * doy + 2) / 153 in
  let d := doy - (153 * mp + 2) / 5 + 1 in
  let m := if mp <? 10 then mp + 3 else mp - 9 in
  mkDate (if m <=? 2 then y + 1 else y) m d.

(* ================================================================== *)
(** ** date-fns primitives, at a fixed time-zone offset [tz] *)

(** [parseISO("YYYY-MM-DD")]: local midnight of that calendar date. *)
Definition parseISO (tz : Z) (d : date) : Z :=
  days_from_civil d * MS_PER_DAY - tz.

(** Local calendar day index of an instant. *)
Definition local_day (tz t : Z) : Z := (t + tz) / MS_PER_DAY.

(** [startOfDay(t)]: local midnight of the day containing [t]. *)
Definition startOfDay (tz t : Z) : Z := local_day tz t * MS_PER_DAY - tz.

(** [compareLocalAsc]: -1, 0 or 1 comparing the local fields; with a fixed
    offset this is the comparison of the instants. *)
Definition compareLocalAsc (l r : Z) : Z := Z.sgn (l - r).

(** [differenceInCalendarDays]: with a fixed offset the time-zone
    correction of date-fns cancels and the rounding is exact. *)
Definition differenceInCalendarDays (tz l r : Z) : Z :=
  (startOfDay tz l - startOfDay tz r) / MS_PER_DAY.

(** [differenceInDays] of date-fns. *)
Definition differenceInDays (tz l r : Z) : Z :=
  let sign := compareLocalAsc l r in
  let difference := Z.abs (differenceInCalendarDays tz l r) in
  let l' := l - sign * difference * MS_PER_DAY in
  let isLastDayNotFull := if compareLocalAsc l' r =? - sign then 1 else 0 in
  sign * (difference - isLastDayNotFull).

(* ================================================================== *)
(** ** deadline-utils.ts: the urgency classifier *)

Inductive ConsequenceLevel := low | medium | high | critical_level.

Inductive DeadlineStatus :=
  | safe | upcoming | warning | urgent | critical | overdue.

(** [URGENCY_THRESHOLDS] *)
Definition URGENCY_overdue : Z := 0.
Definition URGENCY_critical : Z := 3.
Definition URGENCY_urgent : Z := 7.
Definition URGENCY_warning : Z := 14.
Definition URGENCY_upcoming : Z := 30.

(** [getDaysUntilDue(dueDate)], evaluated at instant [now]. *)
Definition getDaysUntilDue (tz now : Z) (dueDate : date) : Z :=
  let today := startOfDay tz now in
  let due := startOfDay tz (parseISO tz dueDate) in
  differenceInDays tz due today.

(** [getDeadlineStatus(dueDate, consequenceLevel?)]. *)
Definition getDeadlineStatus (tz now : Z) (dueDate : date)
    (consequenceLevel : option ConsequenceLevel) : DeadlineStatus :=
  let daysUntilDue := getDaysUntilDue tz now dueDate in
  if daysUntilDue <? 0 then overdue
  else if daysUntilDue <=? URGENCY_critical then critical
  else if daysUntilDue <=? URGENCY_urgent then urgent
  else if daysUntilDue <=? URGENCY_warning then warning
  else if daysUntilDue <=? URGENCY_upcoming then upcoming
  else safe.

(* ================================================================== *)
(** ** deadline-utils.ts: the recurrence scheduler *)

Inductive RecurrencePattern :=
  | none | monthly | quarterly | semi_annual | annual | biennial | custom.

(** date-fns [addMonths(date, amount)]: [endOfDesiredMonth] is
    [setMonth(getMonth() + amount + 1, 0)], the last day of the target
    month; the day of month is kept unless it does not fit there. *)
Definition addMonths (d : date) (amount : Z) : date :=
  if amount =? 0 then d else
  let target := year d * 12 + (month d - 1) + amount in
  let ey := target / 12 in
  let em := target mod 12 + 1 in
  let daysInMonth := days_in_month ey em in
  if daysInMonth <=? day d then mkDate ey em daysInMonth
  else mkDate ey em (day d).

(** date-fns [addYears(date, amount)] = [addMonths(date, amount * 12)]. *)
Definition addYears (d : date) (amount : Z) : date := addMonths d (amount * 12).

(** date-fns [addDays(date, amount)]: [setDate(getDate() + amount)], local
    calendar-day arithmetic. *)
Definition addDays (d : date) (amount : Z) : date :=
  if amount =? 0 then d else civil_from_days (days_from_civil d + amount).

(** [customDays || 365]: an absent or zero [customDays] is falsy. *)
Definition custom_days_or_default (customDays : option Z) : Z :=
  match customDays with
  | Some c => if c =? 0 then 365 else c
  | None => 365
  end.

(** [getNextDueDate(currentDueDate, recurrence, customDays?)]. *)
Definition getNextDueDate (current : date) (recurrence : RecurrencePattern)
    (customDays : option Z) : date :=
  match recurrence with
  | monthly => addMonths current 1
  | quarterly => addMonths current 3
  | semi_annual => addMonths current 6
  | annual => addYears current 1
  | biennial => addYears current 2
  | custom => addDays current (custom_days_or_default customDays)
  | none => current
  end.

(* ================================================================== *)
(** ** 20260119_production_ready.sql: [create_next_recurring_deadline] *)

(** The columns of NEW that the trigger reads. *)
Record RecurringRow := mkRecurringRow {
  rr_recurrence : option RecurrencePattern;   (* NULL = None *)
  rr_recurrence_interval_days : option Z;
  rr_due_date : date;
  rr_auto_renew : option bool
}.

(** [interval_days := CASE NEW.recurrence ... END]. *)
Definition sql_interval_days (r : RecurrencePattern) (rid : option Z) : option Z :=
  match r with
  | monthly => Some 30
  | quarterly => Some 90
  | semi_annual => Some 180
  | annual => Some 365
  | biennial => Some 730
  | custom => Some (match rid with Some n => n | None => 365 end)  (* COALESCE *)
  | none => None
  end.

(** Postgres [date + integer]: that many days later. *)
Definition sql_date_plus (d : date) (n : Z) : date :=
  civil_from_days (days_from_civil d + n).

(** The trigger body; [Some d] when a successor row with due date [d] is
    inserted, [None] when it returns NEW without inserting. *)
Definition create_next_recurring_deadline (NEW : RecurringRow) (current_date : date)
    : option date :=
  match rr_recurrence NEW with
  | None | Some none => None
  | Some r =>
      match sql_interval_days r (rr_recurrence_interval_days NEW) with
      | None => None
      | Some interval_days =>
          let next_due_date := sql_date_plus (rr_due_date NEW) interval_days in
          if bool_decide (rr_auto_renew NEW = Some true)
             && (days_from_civil (rr_due_date NEW) <? days_from_civil current_date)
          then Some next_due_date else None
      end
  end.

(* ================================================================== *)
(** ** Rate limit trigger [check_deadline_rate_limit] (BEFORE INSERT) *)

(** A deadline row as far as the trigger sees it. *)
Record CreatedRow := mkCreatedRow { cr_user_id : string; cr_created_at : Z }.

Inductive InsertResult := Inserted | RaisedException (msg : string).

Definition RATE_LIMIT_MESSAGE : string :=
  "Rate limit exceeded: Maximum 100 deadlines per day".

(** [SELECT COUNT] of the rows [WHERE user_id = NEW.user_id
     AND created_at > NOW() - INTERVAL '1 day'] *)
Definition recent_count (rows : list CreatedRow) (user : string) (now : Z) : Z :=
  Z.of_nat (length (filter (fun r => bool_decide (cr_user_id r = user)
                                     && (now - MS_PER_DAY <? cr_created_at r)) rows)).

(** [INSERT INTO deadlines ...] with the trigger; [created_at] defaults to
    [now()]. *)
Definition insert_deadline (rows : list CreatedRow) (user : string) (now : Z)
    : list CreatedRow * InsertResult :=
  if recent_count rows user now >? 100 then (rows, RaisedException RATE_LIMIT_MESSAGE)
  else (rows ++ [mkCreatedRow user now], Inserted).

(* ================================================================== *)
(** ** send-deadline-reminders/index.ts *)

(** [REMINDER_WINDOWS] *)
Definition REMINDER_WINDOWS : list Z := [30; 14; 7; 3; 1].

(** [Math.ceil(x / y)] for [y > 0], on integers. *)
Definition ceil_div (x y : Z) : Z := - ((- x) / y).

(** [new Date(dueDate)] for a date-only ISO string: UTC midnight. *)
Definition js_date_utc (d : date) : Z := days_from_civil d * MS_PER_DAY.

(** [getDaysUntilDeadline(dueDate)], evaluated at instant [now]. *)
Definition getDaysUntilDeadline (now : Z) (dueDate : date) : Z :=
  let due := js_date_utc dueDate in
  let diffTime := due - now in
  ceil_div diffTime MS_PER_DAY.

(** [shouldSendReminder(daysUntil, lastReminderSent)], evaluated at instant
    [now]; [lastReminderSent] is [None] for [null]. *)
Definition shouldSendReminder (daysUntil : Z) (lastReminderSent : option Z)
    (now : Z) : bool :=
  let isAtWindow :=
    existsb (fun window => (daysUntil <=? window) && (window - 1 <? daysUntil))
      REMINDER_WINDOWS in
  if negb isAtWindow then false else
  match lastReminderSent with
  | None => true
  | Some lastSent =>
      let hoursSinceLastReminder :=
        (inject_Z (now - lastSent) / inject_Z MS_PER_HOUR)%Q in
      Qle_bool (inject_Z 24) hoursSinceLastReminder
  end.

(** A fetched deadline row (the fields the loop reads). *)
Record Deadline := mkDeadline {
  dl_id : string;
  dl_due_date : date;
  dl_user_id : string;
  dl_last_reminder_sent : option Z
}.

Record Profile := mkProfile { pr_email : string; pr_name : string }.

(** State of one invocation: the [last_reminder_sent] column of the
    [deadlines] table, keyed by id, and the two counters. *)
Record DispatchState := mkDispatchState {
  ds_last_sent : gmap string (option Z);
  ds_sent : nat;
  ds_skipped : nat
}.

Section Dispatcher.
(** The instant of the invocation ([new Date()]). *)
Variable now : Z.
(** [profiles.select("email, name").eq("id", user_id).single()]:
    [None] on error or when no row is found. *)
Variable profile_of : string -> option Profile.
(** [sendReminderEmail(email, name, deadline, daysUntil)]: [true] only when
    the email API accepted the message. *)
Variable sendReminderEmail : string -> string -> Deadline -> Z -> bool.
(** Whether the [update] of [last_reminder_sent] returned no error. *)
Variable update_ok : string -> bool.

(** One iteration of [for (const deadline of deadlines || [])]. *)
Definition process_deadline (s : DispatchState) (deadline : Deadline)
    : DispatchState :=
  let daysUntil := getDaysUntilDeadline now (dl_due_date deadline) in
  if negb (shouldSendReminder daysUntil (dl_last_reminder_sent deadline) now)
  then mkDispatchState (ds_last_sent s) (ds_sent s) (S (ds_skipped s))
  else
    match profile_of (dl_user_id deadline) with
    | None => s   (* continue *)
    | Some profile =>
        let sent := sendReminderEmail (pr_email profile) (pr_name profile)
                      deadline daysUntil in
        if sent then
          let db := if update_ok (dl_id deadline)
                    then alter (fun _ => Some now) (dl_id deadline) (ds_last_sent s)
                    else ds_last_sent s in
          mkDispatchState db (S (ds_sent s)) (ds_skipped s)
        else s
    end.

(** The email for [dl] was accepted (not part of the source: names the
    condition under which the loop writes [last_reminder_sent]). *)
Definition delivered (dl : Deadline) : Prop :=
  exists p, profile_of (dl_user_id dl) = Some p /\
    sendReminderEmail (pr_email p) (pr_name p) dl
      (getDaysUntilDeadline now (dl_due_date dl)) = true.

(** The loop over the fetched deadlines. *)
Definition dispatch (deadlines : list Deadline) (s : DispatchState)
    : DispatchState :=
  fold_left process_deadline deadlines s.
End Dispatcher.

(** The response of a successful run of [serve] (not a preflight, the
    fetch returned no error): the final state and [totalDeadlines]. *)
Record ReminderRun := mkReminderRun {
  rr_state : DispatchState;
  rr_totalDeadlines : Z
}.

(** [serve]: the fetch [.gte("due_date", today)] keeps the rows of
    [table] due on or after [today], the UTC calendar date of [now]
    ([new Date().toISOString().split("T")[0]]); a Postgres [date] compares
    by its day number. [last_sent] is the [last_reminder_sent] column of
    [table], keyed by id. The loop is [dispatch]. *)
Definition reminders_serve (now : Z) (profile_of : string -> option Profile)
    (sendReminderEmail : string -> string -> Deadline -> Z -> bool)
    (update_ok : string -> bool) (table : list Deadline) (last_sent : gmap string (option Z))
    : ReminderRun :=
  let deadlines := filter (fun dl => now / MS_PER_DAY <= days_from_civil (dl_due_date dl)) table in
  mkReminderRun (dispatch now profile_of sendReminderEmail update_ok deadlines
                   (mkDispatchState last_sent 0 0))
                (Z.of_nat (length deadlines)).

(* ================================================================== *)
(** ** stripe-webhook/index.ts *)

(** The fields of a Stripe subscription object that the handler reads;
    [s_price_id] is [items.data[0]?.price.id] ([None] = [undefined]). *)
Record StripeSubscription := mkStripeSubscription {
  s_id : string;
  s_price_id : option string;
  s_status : string;
  s_trial_end : option Z;          (* seconds *)
  s_metadata_user : option string;
  s_customer : string
}.

Inductive StripeEvent :=
  | CheckoutSessionCompleted (metadata_user : option string) (subscription : string)
  | CustomerSubscriptionUpdated (sub : StripeSubscription)
  | CustomerSubscriptionDeleted (sub : StripeSubscription)
  | InvoicePaymentFailed (subscription : option string)
  | InvoicePaymentSucceeded (subscription : option string) (billing_reason : string)
  | OtherEvent (type : string).

(** A row of [public.subscriptions]: its key columns and the columns
    whose values the statements below are about. [updated_at] (set to
    [now()] by the trigger [update_subscriptions_updated_at] on every
    UPDATE), [canceled_at], [trial_ends_at], [cancel_at_period_end] and the
    period timestamps are not modelled. *)
Record SubRow := mkSubRow {
  row_user_id : string;
  row_stripe_subscription_id : option string;
  row_stripe_price_id : option string;
  row_plan_tier : string;
  row_status : string
}.

(** The body of the [upsert(...)] of [checkout.session.completed] after
    supabase-js's [JSON.stringify]: a property whose value is [undefined]
    or a function is dropped ([None]). [pl_plan_tier] is the text Postgres
    reads for the enum column: a JSON string's contents, or "{}" for an
    empty JSON object. *)
Record SubPayload := mkSubPayload {
  pl_user_id : string;
  pl_stripe_subscription_id : string;
  pl_stripe_price_id : option string;
  pl_plan_tier : option string;
  pl_status : string
}.

(** The body of an [update(...)] after [JSON.stringify]: [None] when the
    property is absent or dropped; the column is then left alone. *)
Record SubPatch := mkSubPatch {
  p_stripe_price_id : option string;
  p_plan_tier : option string;
  p_status : option string
}.

(** Database requests issued by the handler. *)
Inductive DbOp :=
  | UpsertSubscription (payload : SubPayload) (onConflict : string)
  | UpdateBySubscriptionId (stripe_subscription_id : string) (patch : SubPatch)
  | SelectProfileByCustomer (customer : string).

(** JS truthiness of an optional string. *)
Definition truthy (o : option string) : option string :=
  match o with Some s => if bool_decide (s = "") then None else Some s | None => None end.

(** Environment variables [STRIPE_PRO_MONTHLY_PRICE_ID], ... *)
Record PriceEnv := mkPriceEnv {
  env_pro_monthly : option string;
  env_pro_yearly : option string;
  env_team_monthly : option string;
  env_team_yearly : option string
}.

(** [PRICE_TO_TIER]: an object literal with computed keys, later keys
    overwriting earlier equal ones. *)
Definition PRICE_TO_TIER (env : PriceEnv) : gmap string string :=
  <[default "" (env_team_yearly env) := "team"]>
  (<[default "" (env_team_monthly env) := "team"]>
  (<[default "" (env_pro_yearly env) := "pro"]>
  (<[default "" (env_pro_monthly env) := "pro"]> ∅))).

(** The property key [PRICE_TO_TIER[priceId]] looks up: [undefined] is
    converted to the string "undefined". *)
Definition price_key (priceId : option string) : string := default "undefined" priceId.

(** The property names of [Object.prototype], which every object literal
    inherits. *)
Definition OBJECT_PROTOTYPE_KEYS : list string :=
  ["constructor"; "__defineGetter__"; "__defineSetter__"; "hasOwnProperty";
   "__lookupGetter__"; "__lookupSetter__"; "isPrototypeOf"; "propertyIsEnumerable";
   "toString"; "valueOf"; "__proto__"; "toLocaleString"].

(** A value read from the object literal [PRICE_TO_TIER]: an own string,
    or a member inherited from [Object.prototype]: [__proto__] reads the
    prototype object itself, every other inherited name a function. *)
Inductive TierValue := TierString (s : string) | TierMethod (name : string) | TierPrototype.

(** [PRICE_TO_TIER[priceId] || "pro"]: an own key first, then an inherited
    member (truthy, so [|| "pro"] keeps it), else [undefined] and "pro". *)
Definition plan_tier_of (env : PriceEnv) (priceId : option string) : TierValue :=
  let k := price_key priceId in
  match PRICE_TO_TIER env !! k with
  | Some t => if bool_decide (t = "") then TierString "pro" else TierString t
  | None =>
      if bool_decide (k = "__proto__") then TierPrototype
      else if bool_decide (k ∈ OBJECT_PROTOTYPE_KEYS) then TierMethod k
      else TierString "pro"
  end.

(** [plan_tier: planTier] after [JSON.stringify]: a string is kept, a
    function drops the property, the prototype object (no own enumerable
    property) becomes an empty JSON object, read by Postgres as "{}". *)
Definition tier_json (v : TierValue) : option string :=
  match v with
  | TierString s => Some s
  | TierMethod _ => None
  | TierPrototype => Some "{}"
  end.

Section Webhook.
Variable env : PriceEnv.
(** [stripe.subscriptions.retrieve(id)] *)
Variable retrieve : string -> StripeSubscription.
(** Whether [profiles.select("id").eq("stripe_customer_id", c).single()]
    finds a profile. *)
Variable profile_by_customer : string -> bool.
(** [Date.now()] in milliseconds. *)
Variable now_ms : Z.
(** [stripe.webhooks.constructEvent(body, signature, secret)]: [None] when
    it throws (bad signature or payload). *)
Variable constructEvent : string -> string -> string -> option StripeEvent.
Variable webhookSecret : string.

(** The [switch (event.type)]: the database requests issued, in order. *)
Definition handle_event (ev : StripeEvent) : list DbOp :=
  match ev with
  | CheckoutSessionCompleted metadata_user session_subscription =>
      match truthy metadata_user with
      | None => []
      | Some userId =>
          let subscription := retrieve session_subscription in
          let priceId := s_price_id subscription in
          let planTier := plan_tier_of env priceId in
          [UpsertSubscription
             (mkSubPayload userId (s_id subscription) priceId (tier_json planTier)
                (if bool_decide (s_status subscription = "trialing")
                 then "trialing" else "active"))
             "user_id"]
      end
  | CustomerSubscriptionUpdated subscription =>
      let priceId := s_price_id subscription in
      let planTier := plan_tier_of env priceId in
      let status :=
        match s_trial_end subscription with
        | Some te =>
            if bool_decide (s_status subscription = "active")
               && negb (te =? 0) && (now_ms <? te * 1000)
            then "trialing" else s_status subscription
        | None => s_status subscription
        end in
      let update :=
        UpdateBySubscriptionId (s_id subscription)
          (mkSubPatch priceId (tier_json planTier) (Some status)) in
      match truthy (s_metadata_user subscription) with
      | Some _ => [update]
      | None =>
          SelectProfileByCustomer (s_customer subscription) ::
          (if profile_by_customer (s_customer subscription) then [update] else [])
      end
  | CustomerSubscriptionDeleted subscription =>
      [UpdateBySubscriptionId (s_id subscription) (mkSubPatch None None (Some "canceled"))]
  | InvoicePaymentFailed invoice_subscription =>
      match truthy invoice_subscription with
      | Some sid => [UpdateBySubscriptionId sid (mkSubPatch None None (Some "past_due"))]
      | None => []
      end
  | InvoicePaymentSucceeded invoice_subscription billing_reason =>
      match truthy invoice_subscription with
      | Some sid =>
          if bool_decide (billing_reason = "subscription_cycle")
          then [UpdateBySubscriptionId sid (mkSubPatch None None (Some "active"))]
          else []
      | None => []
      end
  | OtherEvent _ => []
  end.

(** [serve(async (req) => ...)]: the response status and the database
    requests issued. *)
Definition serve (signature_header : option string) (body : string)
    : Z * list DbOp :=
  match truthy signature_header with
  | None => (400, [])                       (* "No signature" *)
  | Some signature =>
      match constructEvent body signature webhookSecret with
      | None => (400, [])                   (* catch: "Webhook error" *)
      | Some event => (200, handle_event event)
      end
  end.
End Webhook.

(* ================================================================== *)
(** ** The [subscriptions] table under Postgres/PostgREST semantics *)

(** [id UUID PRIMARY KEY], [stripe_subscription_id TEXT UNIQUE]; [user_id]
    carries only a plain index ([idx_subscriptions_user]). *)
Definition subscriptions_unique_columns : list string := ["id"; "stripe_subscription_id"].

Inductive DbResult := DbOk | DbError (sqlstate : string).

(** The labels of the enums [plan_tier] and [subscription_status]. *)
Definition plan_tier_labels : list string := ["free"; "pro"; "team"; "enterprise"].
Definition subscription_status_labels : list string :=
  ["trialing"; "active"; "past_due"; "canceled"; "unpaid"; "incomplete"].

(** Whether the enum's input function accepts the text a body gives for
    the column ([None]: the body does not set it); otherwise the statement
    fails with SQLSTATE 22P02. *)
Definition enum_ok (labels : list string) (v : option string) : bool :=
  match v with Some t => bool_decide (t ∈ labels) | None => true end.

(** The value of a conflict-target column in a row ([None] = NULL or not
    a column the payload sets; the generated [id] never conflicts). *)
Definition conflict_value (col : string) (r : SubRow) : option string :=
  if bool_decide (col = "user_id") then Some (row_user_id r)
  else if bool_decide (col = "stripe_subscription_id") then row_stripe_subscription_id r
  else None.

Definition payload_conflict_value (col : string) (pl : SubPayload) : option string :=
  if bool_decide (col = "user_id") then Some (pl_user_id pl)
  else if bool_decide (col = "stripe_subscription_id") then Some (pl_stripe_subscription_id pl)
  else None.

(** The row an INSERT of the payload creates: an absent column takes its
    default ([stripe_price_id] NULL, [plan_tier] 'free'). *)
Definition payload_row (pl : SubPayload) : SubRow :=
  mkSubRow (pl_user_id pl) (Some (pl_stripe_subscription_id pl)) (pl_stripe_price_id pl)
    (default "free" (pl_plan_tier pl)) (pl_status pl).

(** [ON CONFLICT ... DO UPDATE] with PostgREST's merge-duplicates: the
    payload's columns are set, the others kept. *)
Definition payload_merge (pl : SubPayload) (r : SubRow) : SubRow :=
  mkSubRow (pl_user_id pl) (Some (pl_stripe_subscription_id pl))
    (match pl_stripe_price_id pl with Some p => Some p | None => row_stripe_price_id r end)
    (default (row_plan_tier r) (pl_plan_tier pl)) (pl_status pl).

(** Plain [INSERT]: a duplicate [stripe_subscription_id] violates its
    UNIQUE constraint. *)
Definition sql_insert (rows : list SubRow) (row : SubRow) : list SubRow * DbResult :=
  match row_stripe_subscription_id row with
  | Some sid =>
      if existsb (fun r => bool_decide (row_stripe_subscription_id r = Some sid)) rows
      then (rows, DbError "23505") else (rows ++ [row], DbOk)
  | None => (rows ++ [row], DbOk)
  end.

(** [upsert(row, { onConflict: col })] is [INSERT ... ON CONFLICT (col) DO
    UPDATE]; Postgres rejects a conflict target that no unique index or
    constraint covers (SQLSTATE 42P10). *)
Definition sql_upsert (rows : list SubRow) (pl : SubPayload) (col : string)
    : list SubRow * DbResult :=
  if negb (bool_decide (col ∈ subscriptions_unique_columns)) then (rows, DbError "42P10")
  else if negb (enum_ok plan_tier_labels (pl_plan_tier pl)
                && enum_ok subscription_status_labels (Some (pl_status pl)))
  then (rows, DbError "22P02")
  else match payload_conflict_value col pl with
  | Some v =>
      if existsb (fun r => bool_decide (conflict_value col r = Some v)) rows
      then (map (fun r => if bool_decide (conflict_value col r = Some v)
                          then payload_merge pl r else r) rows,
            DbOk)
      else sql_insert rows (payload_row pl)
  | None => sql_insert rows (payload_row pl)
  end.

Definition apply_patch (p : SubPatch) (r : SubRow) : SubRow :=
  mkSubRow (row_user_id r) (row_stripe_subscription_id r)
    (match p_stripe_price_id p with Some s => Some s | None => row_stripe_price_id r end)
    (default (row_plan_tier r) (p_plan_tier p))
    (default (row_status r) (p_status p)).

(** [update(patch).eq("stripe_subscription_id", sid)] *)
Definition sql_update (rows : list SubRow) (sid : string) (p : SubPatch) : list SubRow :=
  map (fun r => if bool_decide (row_stripe_subscription_id r = Some sid)
                then apply_patch p r else r) rows.

Definition exec_op (rows : list SubRow) (op : DbOp) : list SubRow * DbResult :=
  match op with
  | UpsertSubscription row col => sql_upsert rows row col
  | UpdateBySubscriptionId sid p =>
      if enum_ok plan_tier_labels (p_plan_tier p) && enum_ok subscription_status_labels (p_status p)
      then (sql_update rows sid p, DbOk) else (rows, DbError "22P02")
  | SelectProfileByCustomer _ => (rows, DbOk)
  end.

(** The handler awaits each request and ignores its [error]. *)
Definition exec_ops (rows : list SubRow) (ops : list DbOp) : list SubRow * list DbResult :=
  fold_left (fun acc op => let '(rs, res) := acc in
                           let '(rs', r) := exec_op rs op in (rs', res ++ [r]))
            ops (rows, []).

Definition rows_with_subscription_id (rows : list SubRow) (sid : string) : nat :=
  length (filter (fun r => bool_decide (row_stripe_subscription_id r = Some sid)) rows).

(** The plan-tier text a database request's body carries, if it has the
    property. *)
Definition op_plan_tier (op : DbOp) : option string :=
  match op with
  | UpsertSubscription pl _ => pl_plan_tier pl
  | UpdateBySubscriptionId _ p => p_plan_tier p
  | SelectProfileByCustomer _ => None
  end.

(* ================================================================== *)
(** ** deadline-utils.ts: lists of deadlines *)

Inductive DeadlineCategory := license | insurance | contract | personal | other.

#[global] Instance DeadlineCategory_eq_dec : EqDecision DeadlineCategory.
Proof. solve_decision. Defined.

#[global] Instance DeadlineStatus_eq_dec : EqDecision DeadlineStatus.
Proof. solve_decision. Defined.

(** A deadline as the UI holds it (the fields these functions read). *)
Record UiDeadline := mkUiDeadline {
  ud_id : string;
  ud_category : DeadlineCategory;
  ud_due_date : date;
  ud_consequence_level : ConsequenceLevel
}.

(** [getDeadlineStatus(deadline.due_date, deadline.consequence_level)],
    evaluated at instant [now]. *)
Definition status_of (tz now : Z) (deadline : UiDeadline) : DeadlineStatus :=
  getDeadlineStatus tz now (ud_due_date deadline) (Some (ud_consequence_level deadline)).

(** [statusOrder] of [sortDeadlinesByUrgency]. *)
Definition statusOrder (s : DeadlineStatus) : Z :=
  match s with
  | overdue => 0 | critical => 1 | urgent => 2 | warning => 3 | upcoming => 4 | safe => 5
  end.

(** The comparator passed to [sort] ([new Date(due_date)] is UTC midnight). *)
Definition urgency_compare (tz now : Z) (a b : UiDeadline) : Z :=
  let aStatus := status_of tz now a in
  let bStatus := status_of tz now b in
  if negb (statusOrder aStatus =? statusOrder bStatus)
  then statusOrder aStatus - statusOrder bStatus
  else js_date_utc (ud_due_date a) - js_date_utc (ud_due_date b).

(** [Array.prototype.sort(cmp)] is stable; for a comparator that is a
    consistent total preorder (this one compares the pair (statusOrder,
    due instant) lexicographically) every stable sort returns the same
    list, written here as an insertion sort: an element goes after every
    element that does not compare greater. *)
Fixpoint sort_insert {A} (cmp : A -> A -> Z) (x : A) (l : list A) : list A :=
  match l with
  | [] => [x]
  | y :: l' => if cmp x y <? 0 then x :: l else y :: sort_insert cmp x l'
  end.

Definition js_sort {A} (cmp : A -> A -> Z) (l : list A) : list A :=
  fold_left (fun acc x => sort_insert cmp x acc) l [].

(** [sortDeadlinesByUrgency(deadlines)]: sorts a copy. *)
Definition sortDeadlinesByUrgency (tz now : Z) (deadlines : list UiDeadline)
    : list UiDeadline :=
  js_sort (urgency_compare tz now) deadlines.

(** [Record<DeadlineStatus, Deadline[]>] *)
Record StatusGroups := mkStatusGroups {
  g_overdue : list UiDeadline; g_critical : list UiDeadline; g_urgent : list UiDeadline;
  g_warning : list UiDeadline; g_upcoming : list UiDeadline; g_safe : list UiDeadline
}.

(** [groups[status]] *)
Definition status_group (g : StatusGroups) (s : DeadlineStatus) : list UiDeadline :=
  match s with
  | overdue => g_overdue g | critical => g_critical g | urgent => g_urgent g
  | warning => g_warning g | upcoming => g_upcoming g | safe => g_safe g
  end.

(** [groups[status].push(deadline)] *)
Definition push_status (g : StatusGroups) (s : DeadlineStatus) (d : UiDeadline) : StatusGroups :=
  match s with
  | overdue => mkStatusGroups (g_overdue g ++ [d]) (g_critical g) (g_urgent g) (g_warning g) (g_upcoming g) (g_safe g)
  | critical => mkStatusGroups (g_overdue g) (g_critical g ++ [d]) (g_urgent g) (g_warning g) (g_upcoming g) (g_safe g)
  | urgent => mkStatusGroups (g_overdue g) (g_critical g) (g_urgent g ++ [d]) (g_warning g) (g_upcoming g) (g_safe g)
  | warning => mkStatusGroups (g_overdue g) (g_critical g) (g_urgent g) (g_warning g ++ [d]) (g_upcoming g) (g_safe g)
  | upcoming => mkStatusGroups (g_overdue g) (g_critical g) (g_urgent g) (g_warning g) (g_upcoming g ++ [d]) (g_safe g)
  | safe => mkStatusGroups (g_overdue g) (g_critical g) (g_urgent g) (g_warning g) (g_upcoming g) (g_safe g ++ [d])
  end.

(** [groupDeadlinesByStatus(deadlines)] *)
Definition groupDeadlinesByStatus (tz now : Z) (deadlines : list UiDeadline) : StatusGroups :=
  fold_left (fun groups deadline => push_status groups (status_of tz now deadline) deadline)
    deadlines (mkStatusGroups [] [] [] [] [] []).

(** [Record<DeadlineCategory, Deadline[]>] *)
Record CategoryGroups := mkCategoryGroups {
  g_license : list UiDeadline; g_insurance : list UiDeadline; g_contract : list UiDeadline;
  g_personal : list UiDeadline; g_other : list UiDeadline
}.

Definition category_group (g : CategoryGroups) (c : DeadlineCategory) : list UiDeadline :=
  match c with
  | license => g_license g | insurance => g_insurance g | contract => g_contract g
  | personal => g_personal g | other => g_other g
  end.

Definition push_category (g : CategoryGroups) (c : DeadlineCategory) (d : UiDeadline) : CategoryGroups :=
  match c with
  | license => mkCategoryGroups (g_license g ++ [d]) (g_insurance g) (g_contract g) (g_personal g) (g_other g)
  | insurance => mkCategoryGroups (g_license g) (g_insurance g ++ [d]) (g_contract g) (g_personal g) (g_other g)
  | contract => mkCategoryGroups (g_license g) (g_insurance g) (g_contract g ++ [d]) (g_personal g) (g_other g)
  | personal => mkCategoryGroups (g_license g) (g_insurance g) (g_contract g) (g_personal g ++ [d]) (g_other g)
  | other => mkCategoryGroups (g_license g) (g_insurance g) (g_contract g) (g_personal g) (g_other g ++ [d])
  end.

(** [groupDeadlinesByCategory(deadlines)] *)
Definition groupDeadlinesByCategory (deadlines : list UiDeadline) : CategoryGroups :=
  fold_left (fun groups deadline => push_category groups (ud_category deadline) deadline)
    deadlines (mkCategoryGroups [] [] [] [] []).

(** The object returned by [getDeadlineCounts]. *)
Record DeadlineCounts := mkDeadlineCounts {
  c_total : Z; c_overdue : Z; c_critical : Z; c_urgent : Z;
  c_warning : Z; c_upcoming : Z; c_safe : Z
}.

(** [counts[status]] *)
Definition count_of (c : DeadlineCounts) (s : DeadlineStatus) : Z :=
  match s with
  | overdue => c_overdue c | critical => c_critical c | urgent => c_urgent c
  | warning => c_warning c | upcoming => c_upcoming c | safe => c_safe c
  end.

(** [counts[status]++] *)
Definition incr_count (c : DeadlineCounts) (s : DeadlineStatus) : DeadlineCounts :=
  match s with
  | overdue => mkDeadlineCounts (c_total c) (c_overdue c + 1) (c_critical c) (c_urgent c) (c_warning c) (c_upcoming c) (c_safe c)
  | critical => mkDeadlineCounts (c_total c) (c_overdue c) (c_critical c + 1) (c_urgent c) (c_warning c) (c_upcoming c) (c_safe c)
  | urgent => mkDeadlineCounts (c_total c) (c_overdue c) (c_critical c) (c_urgent c + 1) (c_warning c) (c_upcoming c) (c_safe c)
  | warning => mkDeadlineCounts (c_total c) (c_overdue c) (c_critical c) (c_urgent c) (c_warning c + 1) (c_upcoming c) (c_safe c)
  | upcoming => mkDeadlineCounts (c_total c) (c_overdue c) (c_critical c) (c_urgent c) (c_warning c) (c_upcoming c + 1) (c_safe c)
  | safe => mkDeadlineCounts (c_total c) (c_overdue c) (c_critical c) (c_urgent c) (c_warning c) (c_upcoming c) (c_safe c + 1)
  end.

(** [getDeadlineCounts(deadlines)] *)
Definition getDeadlineCounts (tz now : Z) (deadlines : list UiDeadline) : DeadlineCounts :=
  fold_left (fun counts deadline => incr_count counts (status_of tz now deadline))
    deadlines (mkDeadlineCounts (Z.of_nat (length deadlines)) 0 0 0 0 0 0).

(** [statusPriority] of [getOverallUrgency]. *)
Definition statusPriority : list DeadlineStatus :=
  [overdue; critical; urgent; warning; upcoming; safe].

(** The nested [for] loops: the first status of [priority] that some
    deadline has; ['safe'] after both loops. *)
Fixpoint first_status (tz now : Z) (priority : list DeadlineStatus)
    (deadlines : list UiDeadline) : DeadlineStatus :=
  match priority with
  | [] => safe
  | status :: rest =>
      if existsb (fun deadline => bool_decide (status_of tz now deadline = status)) deadlines
      then status else first_status tz now rest deadlines
  end.

(** [getOverallUrgency(deadlines)] *)
Definition getOverallUrgency (tz now : Z) (deadlines : list UiDeadline) : DeadlineStatus :=
  if (length deadlines =? 0)%nat then safe
  else first_status tz now statusPriority deadlines.

(** The sort key of [sortDeadlinesByUrgency] within one status: the
    due date's day number (naming helper). *)
Definition due_day (d : UiDeadline) : Z := days_from_civil (ud_due_date d).

(** [formatDaysUntilDue(dueDate)], evaluated at instant [now]; a JS
    template [`${n}`] of an integer is its decimal text, [pretty] on [Z]. *)
Definition formatDaysUntilDue (tz now : Z) (dueDate : date) : string :=
  let days := getDaysUntilDue tz now dueDate in
  if days <? 0 then
    let absDays := Z.abs days in
    pretty absDays +:+ " day" +:+ (if negb (absDays =? 1) then "s" else "") +:+ " overdue"
  else if days =? 0 then "Due today"
  else if days =? 1 then "Due tomorrow"
  else pretty days +:+ " days".

(* ================================================================== *)
(** ** send-deadline-reminders/index.ts: the email subject *)

(** [urgencyText] of [sendReminderEmail]. *)
Definition urgencyText (daysUntil : Z) : string :=
  if daysUntil <=? 1 then "TODAY" else if daysUntil <=? 3 then "URGENT" else "Upcoming".

(* ================================================================== *)
(** ** Plan limits: [get_plan_limits], [can_create_deadline] (SQL) and
    [PLAN_LIMITS] (useSubscription) *)

Inductive PlanTier := free | pro | team | enterprise.

Inductive SubscriptionStatus :=
  | st_trialing | st_active | st_past_due | st_canceled | st_unpaid | st_incomplete.

Record PlanLimits := mkPlanLimits {
  pl_deadlines : Z; pl_team_members : Z; pl_sms : Z;
  pl_recurring : bool; pl_integrations : bool
}.

(** [get_plan_limits(tier)]; [None] is a NULL tier (the [ELSE] branch). *)
Definition get_plan_limits (tier : option PlanTier) : PlanLimits :=
  match tier with
  | Some free => mkPlanLimits 5 1 0 false false
  | Some pro => mkPlanLimits (-1) 1 50 true true
  | Some team => mkPlanLimits (-1) 10 200 true true
  | Some enterprise => mkPlanLimits (-1) (-1) (-1) true true
  | None => mkPlanLimits 5 1 0 false false
  end.

(** [PLAN_LIMITS] of useSubscription. *)
Definition PLAN_LIMITS (t : PlanTier) : PlanLimits :=
  match t with
  | free => mkPlanLimits 5 1 0 false false
  | pro => mkPlanLimits (-1) 1 50 true true
  | team => mkPlanLimits (-1) 10 200 true true
  | enterprise => mkPlanLimits (-1) (-1) (-1) true true
  end.

(** A row of [subscriptions] as [can_create_deadline] reads it. *)
Record PlanSubRow := mkPlanSubRow {
  ps_user_id : string; ps_plan_tier : PlanTier; ps_status : SubscriptionStatus
}.

Definition is_active_or_trialing (s : SubscriptionStatus) : bool :=
  match s with st_active | st_trialing => true | _ => false end.

(** [SELECT COALESCE(s.plan_tier, 'free') FROM profiles p LEFT JOIN
    subscriptions s ON s.user_id = p.id AND s.status IN ('active',
    'trialing') WHERE p.id = user_uuid]: one row per matching subscription,
    one row with NULL [s] when there is none, no row without a profile. *)
Definition plan_tier_rows (profile_ids : list string) (subs : list PlanSubRow)
    (user_uuid : string) : list PlanTier :=
  if existsb (fun p => bool_decide (p = user_uuid)) profile_ids then
    match filter (fun s => bool_decide (ps_user_id s = user_uuid)
                           && is_active_or_trialing (ps_status s)) subs with
    | [] => [free]
    | matching => map ps_plan_tier matching
    end
  else [].

(** [can_create_deadline(user_uuid)]: [SELECT ... INTO user_tier] keeps the
    first row (the join order is the one of [subs]); with no row [user_tier]
    is NULL. [deadline_owners] lists the [user_id] of every deadline. *)
Definition can_create_deadline (profile_ids : list string) (subs : list PlanSubRow)
    (deadline_owners : list string) (user_uuid : string) : bool :=
  let user_tier := head (plan_tier_rows profile_ids subs user_uuid) in
  let deadline_limit := pl_deadlines (get_plan_limits user_tier) in
  if deadline_limit =? -1 then true
  else
    let current_count := Z.of_nat (length (filter (fun u => bool_decide (u = user_uuid)) deadline_owners)) in
    current_count <? deadline_limit.

(* ================================================================== *)
(** ** create-checkout-session/index.ts *)

(** What a property read on a plain object literal yields: an own string
    value, a member inherited from [Object.prototype] (a function, or the
    prototype object for [__proto__]; truthy), or [undefined]. *)
Inductive JsLookup := JsString (s : string) | JsInherited | JsUndefined.

Definition js_truthy (v : JsLookup) : bool :=
  match v with JsString s => negb (bool_decide (s = "")) | JsInherited => true | JsUndefined => false end.

(** [PRICE_IDS[priceKey]]: four own keys, each [Deno.env.get(...) || ""]. *)
Definition PRICE_IDS (env : PriceEnv) (priceKey : string) : JsLookup :=
  if bool_decide (priceKey = "pro_monthly") then JsString (default "" (env_pro_monthly env))
  else if bool_decide (priceKey = "pro_yearly") then JsString (default "" (env_pro_yearly env))
  else if bool_decide (priceKey = "team_monthly") then JsString (default "" (env_team_monthly env))
  else if bool_decide (priceKey = "team_yearly") then JsString (default "" (env_team_yearly env))
  else if bool_decide (priceKey ∈ OBJECT_PROTOTYPE_KEYS) then JsInherited
  else JsUndefined.

Record AuthUser := mkAuthUser { au_id : string; au_email : string }.

(** [profiles.select("stripe_customer_id, name, email")...single()] data. *)
Record CheckoutProfile := mkCheckoutProfile {
  cp_stripe_customer_id : option string; cp_name : option string
}.

(** Side effects on Stripe and the database, in order. *)
Inductive CheckoutEffect :=
  | CreateCustomer (email : string) (name : option string) (supabase_user_id : string)
  | UpdateProfileCustomer (user_id : string) (customer : string)
  | CreateSession (customer : string) (price : JsLookup) (supabase_user_id : string).

(** The response: 200 with the session id, or 400 with [error.message]. *)
Inductive CheckoutResponse :=
  | CheckoutPreflight
  | CheckoutOk (sessionId : string)
  | CheckoutError (message : string).

Section Checkout.
Variable env : PriceEnv.
(** [supabase.auth.getUser()] with the caller's JWT: [None] on error or no
    user. *)
Variable getUser : string -> option AuthUser.
(** The profile row of a user ([None] when [.single()] fails). *)
Variable profile_of : string -> option CheckoutProfile.
(** [stripe.customers.create(...)]: [inl message] when it throws. *)
Variable customers_create : string -> option string -> string -> string + string.
(** [stripe.checkout.sessions.create(...)]: [inl message] when it throws. *)
Variable sessions_create : string -> JsLookup -> string -> string + string.

(** Creating the checkout session once the customer is known. *)
Definition checkout_session (customerId : string) (priceId : JsLookup) (user : AuthUser)
    (effects : list CheckoutEffect) : CheckoutResponse * list CheckoutEffect :=
  match sessions_create customerId priceId (au_id user) with
  | inl msg => (CheckoutError msg, effects)
  | inr sessionId =>
      (CheckoutOk sessionId, effects ++ [CreateSession customerId priceId (au_id user)])
  end.

(** [serve(async (req) => ...)]; [body] is [inl message] when [req.json()]
    throws and otherwise the property key [priceKey] converts to
    ("undefined" when it is absent). *)
Definition checkout_serve (method : string) (authHeader : option string)
    (body : string + string) : CheckoutResponse * list CheckoutEffect :=
  if bool_decide (method = "OPTIONS") then (CheckoutPreflight, []) else
  match truthy authHeader with
  | None => (CheckoutError "No authorization header", [])
  | Some h =>
      match getUser h with
      | None => (CheckoutError "Unauthorized", [])
      | Some user =>
          match body with
          | inl msg => (CheckoutError msg, [])
          | inr priceKey =>
              let priceId := PRICE_IDS env priceKey in
              if negb (js_truthy priceId)
              then (CheckoutError ("Invalid price key: " +:+ priceKey), [])
              else
                let profile := profile_of (au_id user) in
                match truthy (match profile with Some p => cp_stripe_customer_id p | None => None end) with
                | Some customerId => checkout_session customerId priceId user []
                | None =>
                    let name := truthy (match profile with Some p => cp_name p | None => None end) in
                    match customers_create (au_email user) name (au_id user) with
                    | inl msg => (CheckoutError msg, [])
                    | inr customerId =>
                        checkout_session customerId priceId user
                          [CreateCustomer (au_email user) name (au_id user);
                           UpdateProfileCustomer (au_id user) customerId]
                    end
                end
          end
      end
  end.
End Checkout.

(** The subscription id an event names (naming helper, not part of the
    source): [session.subscription], [subscription.id] or
    [invoice.subscription]. *)
Definition event_subscription_id (ev : StripeEvent) : option string :=
  match ev with
  | CheckoutSessionCompleted _ sid => Some sid
  | CustomerSubscriptionUpdated sub | CustomerSubscriptionDeleted sub => Some (s_id sub)
  | InvoicePaymentFailed sid | InvoicePaymentSucceeded sid _ => sid
  | OtherEvent _ => None
  end.

(** The key of a [subscriptions] row: its user and subscription id
    (naming helper). *)
Definition row_key (r : SubRow) : string * option string :=
  (row_user_id r, row_stripe_subscription_id r).

(** ** Rate limit over a sequence of requests *)



(** The last character of a string (helper for label suffixes). *)
Definition last_char (s : string) : option Ascii.ascii := head (rev (String.list_ascii_of_string s)).

(* ================================================================== *)
(** ** Finite checks by evaluation *)

(** [forall_from f n k] checks [f k], [f (k+1)], ..., [f (k+n-1)]. *)
Fixpoint forall_from (f : Z -> bool) (n : nat) (k : Z) : bool :=
  match n with
  | O => true
  | S n' => f k && forall_from f n' (k + 1)
  end.

(** One era (400 years = 146097 days) of [civil_from_days] followed by
    [days_from_civil], on the day-of-era [doe]. *)
Definition era_roundtrip_ok (doe : Z) : bool :=
  let yoe := (doe - doe / 1460 + doe / 36524 - doe / 146096) / 365 in
  let doy := doe - (365 * yoe + yoe / 4 - yoe / 100) in
  let mp := (5 * doy + 2) / 153 in
  let d := doy - (153 * mp + 2) / 5 + 1 in
  let m := if mp <? 10 then mp + 3 else mp - 9 in
  let mp' := (m + 9) mod 12 in
  let doy' := (153 * mp' + 2) / 5 + d - 1 in
  (0 <=? yoe) && (yoe <? 400) &&
  (yoe * 365 + yoe / 4 - yoe / 100 + doy' =? doe).

(* ================================================================== *)
(** * Theorems *)

(** ** Calendar lemmas *)

Lemma forall_from_spec (f : Z -> bool) (n : nat) (k : Z) :
  forall_from f n k = true -> forall j, k <= j < k + Z.of_nat n -> f j = true.
Proof.
  revert k. induction n as [|n IH]; simpl; intros k H j Hj; [lia|].
  apply andb_prop in H as [H1 H2].
  destruct (Z.eq_dec j k) as [->|Hne]; [exact H1|].
  apply (IH (k + 1)); [exact H2|lia].
Qed.

Lemma era_roundtrip_all : forall_from era_roundtrip_ok (Z.to_nat 146097) 0 = true.
Proof. vm_compute. reflexivity. Qed.

Lemma days_from_civil_civil_from_days z : days_from_civil (civil_from_days z) = z.
Proof.
  unfold civil_from_days, days_from_civil. cbv zeta. cbn [year month day].
  set (era := (z + 719468) / 146097).
  set (doe := z + 719468 - era * 146097).
  assert (Hdoe : 0 <= doe < 146097).
  { unfold doe, era. pose proof (Z.mod_pos_bound (z + 719468) 146097 ltac:(lia)).
    rewrite Z.mod_eq in H by lia. lia. }
  pose proof (forall_from_spec _ _ _ era_roundtrip_all doe ltac:(rewrite Z2Nat.id; lia)) as Hc.
  unfold era_roundtrip_ok in Hc. cbv zeta in Hc.
  set (yoe := (doe - doe / 1460 + doe / 36524 - doe / 146096) / 365) in *.
  set (doy := doe - (365 * yoe + yoe / 4 - yoe / 100)) in *.
  set (mp := (5 * doy + 2) / 153) in *.
  set (m := if mp <? 10 then mp + 3 else mp - 9) in *.
  apply andb_prop in Hc as [Hc Heq]. apply andb_prop in Hc as [Hc1 Hc2].
  apply Z.leb_le in Hc1. apply Z.ltb_lt in Hc2. apply Z.eqb_eq in Heq.
  assert (Hy : (if m <=? 2 then (if m <=? 2 then yoe + era * 400 + 1 else yoe + era * 400) - 1
               else (if m <=? 2 then yoe + era * 400 + 1 else yoe + era * 400)) = yoe + era * 400).
  { destruct (m <=? 2); lia. }
  rewrite Hy.
  assert (Hq : (yoe + era * 400) / 400 = era).
  { rewrite Z.div_add by lia. rewrite Z.div_small by lia. lia. }
  rewrite Hq.
  replace (yoe + era * 400 - era * 400) with yoe by lia.
  unfold doe in Heq. lia.
Qed.

Lemma local_day_midnight tz k : local_day tz (k * MS_PER_DAY - tz) = k.
Proof.
  unfold local_day. replace (k * MS_PER_DAY - tz + tz) with (k * MS_PER_DAY) by lia.
  apply Z.div_mul. unfold MS_PER_DAY. lia.
Qed.

Lemma startOfDay_midnight tz k : startOfDay tz (k * MS_PER_DAY - tz) = k * MS_PER_DAY - tz.
Proof. unfold startOfDay. rewrite local_day_midnight. reflexivity. Qed.

Lemma getDaysUntilDue_calendar tz now due :
  getDaysUntilDue tz now due = days_from_civil due - local_day tz now.
Proof.
  unfold getDaysUntilDue, parseISO. cbv zeta.
  rewrite startOfDay_midnight.
  change (startOfDay tz now) with (local_day tz now * MS_PER_DAY - tz).
  set (D := days_from_civil due). set (L := local_day tz now).
  unfold differenceInDays, differenceInCalendarDays, compareLocalAsc. cbv zeta.
  rewrite !startOfDay_midnight.
  replace (D * MS_PER_DAY - tz - (L * MS_PER_DAY - tz)) with ((D - L) * MS_PER_DAY) by lia.
  rewrite Z.div_mul by (unfold MS_PER_DAY; lia).
  rewrite Z.sgn_mul, (Z.sgn_pos MS_PER_DAY) by (unfold MS_PER_DAY; lia).
  rewrite Z.mul_1_r.
  replace (D * MS_PER_DAY - tz - Z.sgn (D - L) * Z.abs (D - L) * MS_PER_DAY
           - (L * MS_PER_DAY - tz)) with ((D - L - Z.sgn (D - L) * Z.abs (D - L)) * MS_PER_DAY) by lia.
  assert (Hsa : Z.sgn (D - L) * Z.abs (D - L) = D - L).
  { destruct (Z.compare_spec (D - L) 0) as [H|H|H];
      [rewrite H; reflexivity
      |rewrite (Z.sgn_neg _ H), (Z.abs_neq (D - L) ltac:(lia)); lia
      |rewrite (Z.sgn_pos _ H), (Z.abs_eq (D - L) ltac:(lia)); lia]. }
  rewrite Hsa, Z.sub_diag, Z.mul_0_l. simpl Z.sgn.
  destruct (Z.compare_spec (D - L) 0) as [H|H|H].
  - rewrite H. reflexivity.
  - rewrite (Z.sgn_neg _ H), (Z.abs_neq (D - L) ltac:(lia)). simpl. lia.
  - rewrite (Z.sgn_pos _ H), (Z.abs_eq (D - L) ltac:(lia)). simpl. lia.
Qed.

Lemma getDaysUntilDeadline_floor now due :
  getDaysUntilDeadline now due = days_from_civil due - now / MS_PER_DAY.
Proof.
  unfold getDaysUntilDeadline, ceil_div, js_date_utc. cbv zeta.
  replace (- (days_from_civil due * MS_PER_DAY - now))
    with (now + (- days_from_civil due) * MS_PER_DAY) by lia.
  rewrite Z.div_add by (unfold MS_PER_DAY; lia). lia.
Qed.

Lemma window_hit d w : ((d <=? w) && (w - 1 <? d)) = true <-> d = w.
Proof. rewrite andb_true_iff, Z.leb_le, Z.ltb_lt. lia. Qed.


(** Every integer is the day count of some due date. *)
Lemma getDaysUntilDue_surjective tz now d :
  getDaysUntilDue tz now (civil_from_days (d + local_day tz now)) = d.
Proof.
  rewrite getDaysUntilDue_calendar, days_from_civil_civil_from_days. lia.
Qed.

(** ** Urgency classifier *)

(** Claim C1: urgency classification is total and follows the bands:
    every integer day difference is reached by some due date, and the status
    is [overdue] for d < 0, [critical] for 0..3, [urgent] for 4..7,
    [warning] for 8..14, [upcoming] for 15..30 and [safe] from 31 on, where
    d = [getDaysUntilDue] (the local calendar-day difference, see
    [getDaysUntilDue_calendar]). *)
Theorem getDeadlineStatus_bands (tz now : Z) (dueDate : date)
    (lvl : option ConsequenceLevel) :
  (forall d : Z, exists due : date, getDaysUntilDue tz now due = d) /\
  let d := getDaysUntilDue tz now dueDate in
  (getDeadlineStatus tz now dueDate lvl = overdue <-> d < 0) /\
  (getDeadlineStatus tz now dueDate lvl = critical <-> 0 <= d <= 3) /\
  (getDeadlineStatus tz now dueDate lvl = urgent <-> 4 <= d <= 7) /\
  (getDeadlineStatus tz now dueDate lvl = warning <-> 8 <= d <= 14) /\
  (getDeadlineStatus tz now dueDate lvl = upcoming <-> 15 <= d <= 30) /\
  (getDeadlineStatus tz now dueDate lvl = safe <-> 31 <= d).
Proof.
  split.
  { intros d. eexists. apply getDaysUntilDue_surjective. }
  cbv zeta. unfold getDeadlineStatus, URGENCY_critical, URGENCY_urgent,
    URGENCY_warning, URGENCY_upcoming. cbv zeta.
  set (d := getDaysUntilDue tz now dueDate).
  destruct (Z.ltb_spec d 0); [|destruct (Z.leb_spec d 3);
    [|destruct (Z.leb_spec d 7); [|destruct (Z.leb_spec d 14);
    [|destruct (Z.leb_spec d 30)]]]];
  repeat split; intros; try discriminate; try lia; try reflexivity.
Qed.

(** Claim C9: the status does not depend on the consequence level: two
    calls that differ only in that argument return the same status. *)
Theorem getDeadlineStatus_level_independent (tz now : Z) (dueDate : date)
    (l1 l2 : option ConsequenceLevel) :
  getDeadlineStatus tz now dueDate l1 = getDeadlineStatus tz now dueDate l2.
Proof. unfold getDeadlineStatus. reflexivity. Qed.

(** ** Reminder window evaluator *)

(** Claim C2: [shouldSendReminder] is true exactly when the day count is one
    of 30, 14, 7, 3, 1 and either no reminder was sent yet or at least 24
    hours have passed since the last one; in particular it is false off the
    windows whatever [lastReminderSent] is. *)
Theorem shouldSendReminder_spec (daysUntil : Z) (lastReminderSent : option Z) (now : Z) :
  shouldSendReminder daysUntil lastReminderSent now = true <->
  List.In daysUntil [30; 14; 7; 3; 1] /\
  (lastReminderSent = None \/
   exists lastSent, lastReminderSent = Some lastSent /\ now - lastSent >= 24 * 60 * 60 * 1000).
Proof.
  unfold shouldSendReminder, REMINDER_WINDOWS. cbv zeta.
  assert (Hw : existsb (fun window => (daysUntil <=? window) && (window - 1 <? daysUntil))
                 [30; 14; 7; 3; 1] = true <-> List.In daysUntil [30; 14; 7; 3; 1]).
  { rewrite existsb_exists. split.
    - intros (w & Hin & Hw). apply window_hit in Hw. subst. exact Hin.
    - intros Hin. exists daysUntil. split; [exact Hin|]. apply window_hit. reflexivity. }
  destruct (existsb _ _) eqn:E; simpl.
  - assert (Hin : List.In daysUntil [30; 14; 7; 3; 1]) by (apply Hw; reflexivity).
    destruct lastReminderSent as [lastSent|].
    + rewrite Qle_bool_iff. unfold Qle, Qdiv, Qmult, Qinv, inject_Z, MS_PER_HOUR. simpl.
      split.
      * intros H. split; [exact Hin|]. right. exists lastSent. split; [reflexivity|]. lia.
      * intros [_ [H|(l & [= <-] & H)]]; [discriminate|lia].
    + split; [intros _; auto|reflexivity].
  - split; [discriminate|]. intros [Hin _]. apply Hw in Hin. discriminate.
Qed.

Lemma days_in_month_range y m : 28 <= days_in_month y m <= 31.
Proof. unfold days_in_month. repeat (destruct (_ =? _)); destruct (is_leap y); simpl; lia. Qed.

Lemma addMonths_clamp (d : date) (n : Z) :
  valid_date d ->
  let r := addMonths d n in
  valid_date r /\
  year r * 12 + month r = year d * 12 + month d + n /\
  day r = Z.min (day d) (days_in_month (year r) (month r)).
Proof.
  intros [Hm Hd]. unfold addMonths. cbv zeta.
  destruct (Z.eqb_spec n 0) as [->|Hn].
  { split; [split; assumption|]. split; [lia|]. rewrite Z.min_l; lia. }
  set (t := year d * 12 + (month d - 1) + n).
  pose proof (Z.div_mod t 12 ltac:(lia)) as Hdm.
  pose proof (Z.mod_pos_bound t 12 ltac:(lia)) as Hb.
  pose proof (days_in_month_range (t / 12) (t mod 12 + 1)) as Hr.
  destruct (Z.leb_spec (days_in_month (t / 12) (t mod 12 + 1)) (day d)); unfold valid_date; cbn [year month day];
    (split; [split; lia|split; [lia|first [rewrite Z.min_r by lia | rewrite Z.min_l by lia]; reflexivity]]).
Qed.

Lemma addDays_days d n : days_from_civil (addDays d n) = days_from_civil d + n.
Proof.
  unfold addDays. destruct (Z.eqb_spec n 0) as [->|_]; [lia|].
  apply days_from_civil_civil_from_days.
Qed.

Lemma sql_date_plus_days d n : days_from_civil (sql_date_plus d n) = days_from_civil d + n.
Proof. unfold sql_date_plus. apply days_from_civil_civil_from_days. Qed.

(** ** Recurrence scheduler *)

Example getNextDueDate_jan31_monthly :
  getNextDueDate (mkDate 2026 1 31) monthly None = mkDate 2026 2 28.
Proof. reflexivity. Qed.

Example getNextDueDate_feb29_annual :
  getNextDueDate (mkDate 2024 2 29) annual None = mkDate 2025 2 28.
Proof. reflexivity. Qed.

(** Claim C3 fails: the database trigger adds 30 days for [monthly], so a
    January 31 due date gets a successor on March 2 (the TypeScript scheduler
    gives February 28); and the TypeScript scheduler treats
    [customDays = 0] like an unset value ([|| 365]). *)
Lemma recurrence_trigger_not_calendar :
  create_next_recurring_deadline
    (mkRecurringRow (Some monthly) None (mkDate 2026 1 31) (Some true)) (mkDate 2026 2 10)
    = Some (mkDate 2026 3 2) /\
  getNextDueDate (mkDate 2026 1 31) monthly None = mkDate 2026 2 28 /\
  Some (getNextDueDate (mkDate 2026 1 31) monthly None)
    <> create_next_recurring_deadline
         (mkRecurringRow (Some monthly) None (mkDate 2026 1 31) (Some true)) (mkDate 2026 2 10) /\
  getNextDueDate (mkDate 2026 1 15) custom (Some 0) = mkDate 2027 1 15.
Proof. vm_compute. split; [reflexivity|split; [reflexivity|split; [discriminate|reflexivity]]]. Qed.

(** Claim C3 (amended): for a valid date D, the TypeScript scheduler adds
    1, 3, 6, 12 and 24 calendar months for monthly, quarterly, semi_annual,
    annual and biennial (a valid date; the day is kept, clamped to the
    length of the target month); custom adds [customDays] days, and 365 when
    [customDays] is unset or 0; none returns D. The database trigger instead
    adds fixed day counts: 30, 90, 180, 365, 730, and for custom
    [COALESCE(recurrence_interval_days, 365)] days; it inserts the successor
    only when [auto_renew] is true and D has passed, and never for a
    recurrence that is none or NULL. *)
Theorem getNextDueDate_and_trigger (D : date) (customDays : option Z) (HD : valid_date D) :
  (forall (p : RecurrencePattern) (k : Z),
     List.In (p, k) [(monthly, 1); (quarterly, 3); (semi_annual, 6); (annual, 12); (biennial, 24)] ->
     let r := getNextDueDate D p customDays in
     valid_date r /\
     year r * 12 + month r = year D * 12 + month D + k /\
     day r = Z.min (day D) (days_in_month (year r) (month r))) /\
  ((customDays = None \/ customDays = Some 0) ->
     days_from_civil (getNextDueDate D custom customDays) = days_from_civil D + 365) /\
  (forall c, customDays = Some c -> c <> 0 ->
     days_from_civil (getNextDueDate D custom customDays) = days_from_civil D + c) /\
  getNextDueDate D none customDays = D /\
  (forall (NEW : RecurringRow) (current_date : date),
     rr_due_date NEW = D ->
     match rr_recurrence NEW with
     | None | Some none => create_next_recurring_deadline NEW current_date = None
     | Some r =>
         let interval_days :=
           match r with
           | monthly => 30 | quarterly => 90 | semi_annual => 180
           | annual => 365 | biennial => 730
           | custom => default 365 (rr_recurrence_interval_days NEW)
           | none => 0
           end in
         create_next_recurring_deadline NEW current_date =
           (if bool_decide (rr_auto_renew NEW = Some true)
               && (days_from_civil D <? days_from_civil current_date)
            then Some (sql_date_plus D interval_days) else None) /\
         days_from_civil (sql_date_plus D interval_days) = days_from_civil D + interval_days
     end).
Proof.
  split; [|split; [|split; [|split]]].
  - intros p k Hin.
    repeat (destruct Hin as [[= <- <-]|Hin]; [apply addMonths_clamp; exact HD|]).
    destruct Hin.
  - intros [-> | ->]; apply addDays_days.
  - intros c -> Hc. simpl. rewrite addDays_days. unfold custom_days_or_default.
    rewrite (proj2 (Z.eqb_neq c 0) Hc). reflexivity.
  - reflexivity.
  - intros NEW cur HD'. unfold create_next_recurring_deadline. rewrite HD'.
    destruct (rr_recurrence NEW) as [[]|]; try reflexivity;
      (split; [reflexivity|apply sql_date_plus_days]).
Qed.


(** ** Dispatcher day count *)

(** Claim C5 fails: [getDaysUntilDeadline] is elapsed-time arithmetic from
    UTC midnight of the due date; at local offset UTC-5, at 20:00 local time
    on 2026-10-17, a deadline due 2026-10-20 counts 2 days there and 3
    calendar days in [getDaysUntilDue]. *)
Lemma getDaysUntilDeadline_local_offset :
  let tz := - 5 * 3600000 in
  let now := days_from_civil (mkDate 2026 10 18) * MS_PER_DAY + 3600000 in
  getDaysUntilDeadline now (mkDate 2026 10 20) = 2 /\
  getDaysUntilDue tz now (mkDate 2026 10 20) = 3 /\
  getDaysUntilDeadline now (mkDate 2026 10 20) <> getDaysUntilDue tz now (mkDate 2026 10 20).
Proof. vm_compute. split; [reflexivity|split; [reflexivity|discriminate]]. Qed.


(** Claim C5 (amended): [getDaysUntilDeadline] computes
    ceil((UTC midnight of the due date - now) / 24h); it equals the
    calendar-day difference [getDaysUntilDue] when the local time zone is
    UTC (offset 0), for every due date and every instant. *)
Theorem getDaysUntilDeadline_utc (now : Z) (dueDate : date) :
  getDaysUntilDeadline now dueDate = getDaysUntilDue 0 now dueDate.
Proof.
  rewrite getDaysUntilDeadline_floor, getDaysUntilDue_calendar.
  unfold local_day. rewrite Z.add_0_r. reflexivity.
Qed.

(** ** Reminder dispatcher *)

Lemma NoDup_map_same_key {A B} (f : A -> B) (l : list A) x y :
  NoDup (map f l) -> List.In x l -> List.In y l -> f x = f y -> x = y.
Proof.
  induction l as [|a l IH]; simpl; [tauto|].
  intros Hnd Hx Hy Hf. apply NoDup_cons in Hnd as [Hnot Hnd].
  destruct Hx as [<-|Hx], Hy as [<-|Hy]; auto.
  - exfalso. apply Hnot. rewrite Hf. apply list_elem_of_In, in_map. exact Hy.
  - exfalso. apply Hnot. rewrite <- Hf. apply list_elem_of_In, in_map. exact Hx.
Qed.

Section DispatcherFacts.
Variable now : Z.
Variable profile_of : string -> option Profile.
Variable sendReminderEmail : string -> string -> Deadline -> Z -> bool.
Variable update_ok : string -> bool.

Lemma process_deadline_lookup s dl i :
  ds_last_sent (process_deadline now profile_of sendReminderEmail update_ok s dl) !! i
    = ds_last_sent s !! i \/
  (dl_id dl = i /\ delivered now profile_of sendReminderEmail dl /\
   ds_last_sent (process_deadline now profile_of sendReminderEmail update_ok s dl) !! i
     = Some (Some now)).
Proof.
  unfold process_deadline. cbv zeta.
  destruct (shouldSendReminder _ _ _); simpl; [|left; reflexivity].
  destruct (profile_of (dl_user_id dl)) as [p|] eqn:Hp; [|left; reflexivity].
  destruct (sendReminderEmail _ _ _ _) eqn:Hs; [|left; reflexivity]. simpl.
  destruct (update_ok (dl_id dl)); [|left; reflexivity].
  destruct (decide (dl_id dl = i)) as [<-|Hne].
  - rewrite lookup_alter_eq. destruct (ds_last_sent s !! dl_id dl) eqn:E; simpl.
    + right. split; [reflexivity|]. split; [exists p; split; assumption|reflexivity].
    + left. reflexivity.
  - left. rewrite lookup_alter_ne by exact Hne. reflexivity.
Qed.

Lemma dispatch_lookup deadlines s i :
  ds_last_sent (dispatch now profile_of sendReminderEmail update_ok deadlines s) !! i
    = ds_last_sent s !! i \/
  (exists dl, List.In dl deadlines /\ dl_id dl = i /\ delivered now profile_of sendReminderEmail dl /\
   ds_last_sent (dispatch now profile_of sendReminderEmail update_ok deadlines s) !! i
     = Some (Some now)).
Proof.
  revert s. induction deadlines as [|dl rest IH]; intros s; simpl; [left; reflexivity|].
  unfold dispatch in IH. specialize (IH (process_deadline now profile_of sendReminderEmail update_ok s dl)).
  unfold dispatch. simpl.
  destruct IH as [IH|(dl' & Hin & Hid & Hdel & Hv)].
  - rewrite IH. destruct (process_deadline_lookup s dl i) as [H|(Hid & Hdel & Hv)].
    + left. exact H.
    + right. exists dl. auto.
  - right. exists dl'. auto.
Qed.

(** Claim C6: for deadline ids that are distinct (table rows), a deadline
    whose owner profile cannot be found or whose email is not accepted
    keeps its [last_reminder_sent]; and every [last_reminder_sent] that
    changes is set to the invocation instant for a deadline whose email
    was accepted, never before. *)
Theorem dispatch_last_reminder_sent (deadlines : list Deadline) (s : DispatchState)
    (Hids : NoDup (map dl_id deadlines)) :
  let final := ds_last_sent (dispatch now profile_of sendReminderEmail update_ok deadlines s) in
  (forall dl, List.In dl deadlines ->
     (profile_of (dl_user_id dl) = None \/
      exists p, profile_of (dl_user_id dl) = Some p /\
        sendReminderEmail (pr_email p) (pr_name p) dl
          (getDaysUntilDeadline now (dl_due_date dl)) = false) ->
     final !! dl_id dl = ds_last_sent s !! dl_id dl) /\
  (forall i, final !! i = ds_last_sent s !! i \/
     (final !! i = Some (Some now) /\
      exists dl, List.In dl deadlines /\ dl_id dl = i /\ delivered now profile_of sendReminderEmail dl)).
Proof.
  cbv zeta. split.
  - intros dl Hin Hfail.
    destruct (dispatch_lookup deadlines s (dl_id dl)) as [H|(dl' & Hin' & Hid & (p & Hp & Hs) & _)];
      [exact H|].
    assert (dl' = dl) as -> by (eapply NoDup_map_same_key; eauto).
    exfalso. destruct Hfail as [Hn|(p' & Hp' & Hs')]; [congruence|].
    rewrite Hp in Hp'. injection Hp' as <-. congruence.
  - intros i. destruct (dispatch_lookup deadlines s i) as [H|(dl & Hin & Hid & Hdel & Hv)];
      [left; exact H|right; split; [exact Hv|exists dl; auto]].
Qed.
End DispatcherFacts.

(** ** Billing webhook *)

(** Claim C7: when the signature header is absent (or empty) or
    [constructEvent] rejects the signature, the handler answers 400 and
    issues no database request at all. *)
Theorem serve_rejects_unauthenticated (env : PriceEnv) (retrieve : string -> StripeSubscription)
    (profile_by_customer : string -> bool) (now_ms : Z)
    (constructEvent : string -> string -> string -> option StripeEvent)
    (webhookSecret : string) (signature_header : option string) (body : string)
    (Hbad : signature_header = None \/
            exists signature, signature_header = Some signature /\
              constructEvent body signature webhookSecret = None) :
  serve env retrieve profile_by_customer now_ms constructEvent webhookSecret
    signature_header body = (400, []).
Proof.
  unfold serve. destruct Hbad as [->|(sig & -> & Hc)]; [reflexivity|].
  simpl. case_bool_decide; [reflexivity|]. rewrite Hc. reflexivity.
Qed.




Lemma upsert_on_user_id_rejected rows row :
  sql_upsert rows row "user_id" = (rows, DbError "42P10").
Proof. reflexivity. Qed.

(** Claim C4 (code evaluation): the checkout upsert is keyed by [user_id],
    which no unique constraint covers, so Postgres rejects it; two
    deliveries of the same checkout event leave no row for the
    subscription id. *)
Lemma checkout_replay_leaves_no_row :
  let retrieve := fun _ : string =>
    mkStripeSubscription "sub_1" (Some "price_1") "active" None (Some "user_1") "cus_1" in
  let env := mkPriceEnv (Some "price_1") None None None in
  let ev := CheckoutSessionCompleted (Some "user_1") "sub_1" in
  let ops := handle_event env retrieve (fun _ => true) 0 ev in
  let '(rows1, res1) := exec_ops [] ops in
  let '(rows2, res2) := exec_ops rows1 ops in
  res1 = [DbError "42P10"] /\ res2 = [DbError "42P10"] /\
  rows_with_subscription_id rows2 "sub_1" = 0%nat.
Proof. vm_compute. repeat split. Qed.

(** ** Rate limit *)

(** Claim C8 (code evaluation): with 100 deadlines created by a user in the
    last 24 hours the trigger still admits a 101st ([> 100] rather than
    [>= 100]), so 101 rows fall in the window. *)
Lemma rate_limit_admits_101st :
  let now := 10 * MS_PER_DAY in
  let rows := map (fun k => mkCreatedRow "u" (now - Z.of_nat k * 1000)) (seq 1 100) in
  let '(rows', res) := insert_deadline rows "u" now in
  recent_count rows "u" now = 100 /\ res = Inserted /\ recent_count rows' "u" now = 101.
Proof. vm_compute. repeat split. Qed.

(** ** Witnesses: the hypotheses of the claims' theorems hold at concrete
    inputs *)

Lemma getNextDueDate_and_trigger_witness :
  valid_date (mkDate 2026 1 31) /\
  day (getNextDueDate (mkDate 2026 1 31) monthly None)
    = Z.min 31 (days_in_month (year (getNextDueDate (mkDate 2026 1 31) monthly None))
                  (month (getNextDueDate (mkDate 2026 1 31) monthly None))).
Proof.
  assert (Hv : valid_date (mkDate 2026 1 31))
    by (unfold valid_date; cbn [year month day]; change (days_in_month 2026 1) with 31; lia).
  split; [exact Hv|].
  destruct (getNextDueDate_and_trigger (mkDate 2026 1 31) None Hv) as [Hm _].
  apply (Hm monthly 1). left. reflexivity.
Defined.

Lemma dispatch_last_reminder_sent_witness :
  let now := (days_from_civil (mkDate 2026 10 17) * MS_PER_DAY)%Z in
  let d1 := mkDeadline "d1" (mkDate 2026 10 20) "u1" None in
  let d2 := mkDeadline "d2" (mkDate 2026 10 20) "u2" None in
  let profile_of := fun u => if bool_decide (u = "u2")
                             then Some (mkProfile "b@example.com" "B") else None in
  let send := fun (_ _ : string) (_ : Deadline) (_ : Z) => false in
  let s := mkDispatchState (<["d2" := Some 0%Z]> (<["d1" := None]> ∅)) 0 0 in
  let final := ds_last_sent (dispatch now profile_of send (fun _ => true) [d1; d2] s) in
  NoDup (map dl_id [d1; d2]) /\
  shouldSendReminder (getDaysUntilDeadline now (dl_due_date d1)) (dl_last_reminder_sent d1) now = true /\
  shouldSendReminder (getDaysUntilDeadline now (dl_due_date d2)) (dl_last_reminder_sent d2) now = true /\
  profile_of (dl_user_id d1) = None /\
  final !! "d1" = ds_last_sent s !! "d1" /\
  final !! "d2" = ds_last_sent s !! "d2".
Proof.
  cbv zeta.
  assert (Hnd : NoDup (map dl_id [mkDeadline "d1" (mkDate 2026 10 20) "u1" None;
                                  mkDeadline "d2" (mkDate 2026 10 20) "u2" None])).
  { simpl. apply NoDup_cons_2; [|apply NoDup_singleton]. apply not_elem_of_cons.
    split; [discriminate|apply not_elem_of_nil]. }
  destruct (dispatch_last_reminder_sent ((days_from_civil (mkDate 2026 10 17) * MS_PER_DAY)%Z)
              (fun u => if bool_decide (u = "u2") then Some (mkProfile "b@example.com" "B") else None)
              (fun (_ _ : string) (_ : Deadline) (_ : Z) => false) (fun _ => true)
              _ (mkDispatchState (<["d2" := Some 0%Z]> (<["d1" := None]> ∅)) 0 0) Hnd) as [H _].
  split; [exact Hnd|]. split; [vm_compute; reflexivity|]. split; [vm_compute; reflexivity|].
  split; [reflexivity|]. split.
  - apply (H (mkDeadline "d1" (mkDate 2026 10 20) "u1" None)); [left; reflexivity|].
    left. reflexivity.
  - apply (H (mkDeadline "d2" (mkDate 2026 10 20) "u2" None)); [right; left; reflexivity|].
    right. exists (mkProfile "b@example.com" "B"). split; reflexivity.
Defined.

Lemma serve_rejects_unauthenticated_witness :
  let env := mkPriceEnv None None None None in
  let retrieve := fun _ : string =>
    mkStripeSubscription "sub_1" None "active" None None "cus_1" in
  (@None string = None \/ exists signature : string, None = Some signature /\
     (fun _ _ _ : string => Some (OtherEvent "ping")) "{}" signature "whsec" = None) /\
  serve env retrieve (fun _ => true) 0 (fun _ _ _ => Some (OtherEvent "ping")) "whsec"
    None "{}" = (400, []).
Proof.
  cbv zeta. split; [left; reflexivity|].
  apply serve_rejects_unauthenticated. left. reflexivity.
Defined.


(* ================================================================== *)
(** ** Extra: urgency order of the classifier *)

Lemma statusOrder_days (tz now : Z) (due : date) lvl :
  statusOrder (getDeadlineStatus tz now due lvl) =
  let d := days_from_civil due - local_day tz now in
  if d <? 0 then 0 else if d <=? 3 then 1 else if d <=? 7 then 2
  else if d <=? 14 then 3 else if d <=? 30 then 4 else 5.
Proof.
  unfold getDeadlineStatus. rewrite getDaysUntilDue_calendar. cbv zeta.
  unfold URGENCY_critical, URGENCY_urgent, URGENCY_warning, URGENCY_upcoming.
  destruct (_ <? 0); [reflexivity|].
  destruct (_ <=? 3); [reflexivity|]. destruct (_ <=? 7); [reflexivity|].
  destruct (_ <=? 14); [reflexivity|]. destruct (_ <=? 30); reflexivity.
Qed.

Lemma statusOrder_le_days (tz now : Z) (a b : date) (la lb : option ConsequenceLevel) :
  days_from_civil a <= days_from_civil b ->
  statusOrder (getDeadlineStatus tz now a la) <= statusOrder (getDeadlineStatus tz now b lb).
Proof.
  intros Hab. rewrite !statusOrder_days. cbv zeta.
  destruct (Z.ltb_spec (days_from_civil a - local_day tz now) 0);
  destruct (Z.leb_spec (days_from_civil a - local_day tz now) 3);
  destruct (Z.leb_spec (days_from_civil a - local_day tz now) 7);
  destruct (Z.leb_spec (days_from_civil a - local_day tz now) 14);
  destruct (Z.leb_spec (days_from_civil a - local_day tz now) 30);
  destruct (Z.ltb_spec (days_from_civil b - local_day tz now) 0);
  destruct (Z.leb_spec (days_from_civil b - local_day tz now) 3);
  destruct (Z.leb_spec (days_from_civil b - local_day tz now) 7);
  destruct (Z.leb_spec (days_from_civil b - local_day tz now) 14);
  destruct (Z.leb_spec (days_from_civil b - local_day tz now) 30); lia.
Qed.

(** Extra: [getDeadlineStatus] is monotone in the due date: a deadline
    due on or before another never gets a less urgent status ([statusOrder]
    0 = overdue is the most urgent), whatever the consequence levels. *)
Theorem statusOrder_monotone (tz now : Z) (a b : date) (la lb : option ConsequenceLevel)
    (Hab : days_from_civil a <= days_from_civil b) :
  statusOrder (getDeadlineStatus tz now a la) <= statusOrder (getDeadlineStatus tz now b lb).
Proof. apply statusOrder_le_days. exact Hab. Qed.

Lemma statusOrder_inj s1 s2 : statusOrder s1 = statusOrder s2 -> s1 = s2.
Proof. destruct s1, s2; simpl; congruence. Qed.


Lemma urgency_compare_neg tz now a b :
  (urgency_compare tz now a b <? 0) = (due_day a <? due_day b).
Proof.
  unfold urgency_compare, status_of, due_day, js_date_utc. cbv zeta.
  pose proof (statusOrder_le_days tz now (ud_due_date a) (ud_due_date b)
                (Some (ud_consequence_level a)) (Some (ud_consequence_level b))) as H1.
  pose proof (statusOrder_le_days tz now (ud_due_date b) (ud_due_date a)
                (Some (ud_consequence_level b)) (Some (ud_consequence_level a))) as H2.
  assert (HM : 0 < MS_PER_DAY) by (unfold MS_PER_DAY; lia).
  destruct (Z.eqb_spec (statusOrder (getDeadlineStatus tz now (ud_due_date a) (Some (ud_consequence_level a))))
                       (statusOrder (getDeadlineStatus tz now (ud_due_date b) (Some (ud_consequence_level b))))) as [E|E];
    simpl.
  - destruct (Z.ltb_spec (days_from_civil (ud_due_date a) * MS_PER_DAY - days_from_civil (ud_due_date b) * MS_PER_DAY) 0);
    destruct (Z.ltb_spec (days_from_civil (ud_due_date a)) (days_from_civil (ud_due_date b))); nia.
  - destruct (Z.ltb_spec (statusOrder (getDeadlineStatus tz now (ud_due_date a) (Some (ud_consequence_level a)))
              - statusOrder (getDeadlineStatus tz now (ud_due_date b) (Some (ud_consequence_level b)))) 0);
    destruct (Z.ltb_spec (days_from_civil (ud_due_date a)) (days_from_civil (ud_due_date b))); lia.
Qed.

(* ================================================================== *)
(** ** Extra: the stable sort of [sortDeadlinesByUrgency] *)

Section InsertionSort.
Context {A : Type} (cmp : A -> A -> Z) (key : A -> Z).
Hypothesis Hcmp : forall x y, (cmp x y <? 0) = (key x <? key y).

Lemma sort_insert_perm x l : Permutation (sort_insert cmp x l) (x :: l).
Proof.
  induction l as [|y l IH]; simpl; [reflexivity|].
  destruct (cmp x y <? 0); [reflexivity|].
  rewrite IH. apply perm_swap.
Qed.

Lemma js_sort_perm_acc l acc :
  Permutation (fold_left (fun acc x => sort_insert cmp x acc) l acc) (l ++ acc).
Proof.
  revert acc. induction l as [|x l IH]; intros acc; simpl; [reflexivity|].
  rewrite IH, sort_insert_perm. symmetry. apply Permutation_middle.
Qed.

Lemma sort_insert_sorted x l :
  StronglySorted (fun a b => key a <= key b) l ->
  StronglySorted (fun a b => key a <= key b) (sort_insert cmp x l).
Proof.
  induction l as [|y l IH]; simpl; intros Hs.
  - repeat constructor.
  - apply StronglySorted_inv in Hs as [Hs Hy].
    specialize (Hcmp x y). destruct (cmp x y <? 0).
    + symmetry in Hcmp. apply Z.ltb_lt in Hcmp.
      constructor; [constructor; assumption|].
      constructor; [lia|]. eapply Forall_impl; [exact Hy|]. simpl. lia.
    + symmetry in Hcmp. apply Z.ltb_ge in Hcmp.
      constructor; [apply IH; exact Hs|].
      apply Permutation_Forall with (x :: l); [symmetry; apply sort_insert_perm|].
      constructor; [lia|exact Hy].
Qed.

Lemma js_sort_sorted_acc l acc :
  StronglySorted (fun a b => key a <= key b) acc ->
  StronglySorted (fun a b => key a <= key b) (fold_left (fun acc x => sort_insert cmp x acc) l acc).
Proof.
  revert acc. induction l as [|x l IH]; intros acc H; simpl; [exact H|].
  apply IH, sort_insert_sorted, H.
Qed.

Lemma filter_Forall_nil (P : A -> Prop) `{forall x, Decision (P x)} l :
  List.Forall (fun a => ~ P a) l -> filter P l = [].
Proof.
  induction 1 as [|a l Ha _ IH]; [reflexivity|].
  rewrite filter_cons_False by exact Ha. exact IH.
Qed.

Lemma sort_insert_filter k x l :
  StronglySorted (fun a b => key a <= key b) l ->
  filter (fun a => key a = k) (sort_insert cmp x l)
  = filter (fun a => key a = k) l ++ filter (fun a => key a = k) [x].
Proof.
  induction l as [|y l IH]; simpl; intros Hs; [reflexivity|].
  apply StronglySorted_inv in Hs as [Hs Hy].
  specialize (Hcmp x y). destruct (cmp x y <? 0).
  - symmetry in Hcmp. apply Z.ltb_lt in Hcmp.
    rewrite (filter_singleton _ _ []). destruct (decide (key x = k)) as [Hk|Hk].
    + rewrite filter_cons_True by exact Hk.
      assert (Hn : filter (fun a => key a = k) (y :: l) = []).
      { apply filter_Forall_nil.
        constructor; [lia|]. eapply List.Forall_impl; [|exact Hy]. simpl. intros; lia. }
      rewrite Hn. reflexivity.
    + rewrite filter_cons_False by exact Hk. rewrite app_nil_r. reflexivity.
  - rewrite !filter_cons. rewrite IH by exact Hs.
    destruct (decide (key y = k)); reflexivity.
Qed.

Lemma js_sort_filter_acc k l acc :
  StronglySorted (fun a b => key a <= key b) acc ->
  filter (fun a => key a = k) (fold_left (fun acc x => sort_insert cmp x acc) l acc)
  = filter (fun a => key a = k) acc ++ filter (fun a => key a = k) l.
Proof.
  revert acc. induction l as [|x l IH]; intros acc H; simpl.
  - rewrite app_nil_r. reflexivity.
  - rewrite IH by (apply sort_insert_sorted, H).
    rewrite sort_insert_filter by exact H.
    rewrite <- app_assoc. f_equal. change (x :: l) with ([x] ++ l).
    rewrite filter_app. reflexivity.
Qed.
End InsertionSort.

(* ================================================================== *)
(** ** Extra: sorting and overall urgency *)

Lemma StronglySorted_impl {A} (R R' : A -> A -> Prop) l :
  (forall a b, R a b -> R' a b) -> StronglySorted R l -> StronglySorted R' l.
Proof.
  intros HR. induction 1 as [|a l Hs IH Hf]; constructor; [exact IH|].
  eapply List.Forall_impl; [|exact Hf]. exact (HR a).
Qed.

Lemma sortDeadlinesByUrgency_strongly_sorted tz now l :
  StronglySorted (fun a b => days_from_civil (ud_due_date a) <= days_from_civil (ud_due_date b))
    (sortDeadlinesByUrgency tz now l).
Proof.
  apply (js_sort_sorted_acc (urgency_compare tz now) due_day (urgency_compare_neg tz now)).
  constructor.
Qed.

Lemma sortDeadlinesByUrgency_perm tz now l :
  Permutation (sortDeadlinesByUrgency tz now l) l.
Proof.
  unfold sortDeadlinesByUrgency, js_sort. rewrite js_sort_perm_acc. rewrite app_nil_r. reflexivity.
Qed.

(** Extra: [sortDeadlinesByUrgency] returns a permutation of its input,
    ordered by due date and by status (most urgent first), and keeps the
    input order of deadlines due on the same day (the sort is stable). *)
Theorem sortDeadlinesByUrgency_chronological (tz now : Z) (deadlines : list UiDeadline) :
  let sorted := sortDeadlinesByUrgency tz now deadlines in
  Permutation sorted deadlines /\
  Sorted (fun a b => days_from_civil (ud_due_date a) <= days_from_civil (ud_due_date b)) sorted /\
  Sorted (fun a b => statusOrder (status_of tz now a) <= statusOrder (status_of tz now b)) sorted /\
  (forall k, filter (fun a => days_from_civil (ud_due_date a) = k) sorted
             = filter (fun a => days_from_civil (ud_due_date a) = k) deadlines).
Proof.
  cbv zeta. split; [apply sortDeadlinesByUrgency_perm|].
  split; [apply StronglySorted_Sorted, sortDeadlinesByUrgency_strongly_sorted|].
  split.
  - apply StronglySorted_Sorted.
    eapply StronglySorted_impl; [|apply sortDeadlinesByUrgency_strongly_sorted].
    intros a b Hab. apply statusOrder_le_days. exact Hab.
  - intros k. unfold sortDeadlinesByUrgency, js_sort.
    rewrite (js_sort_filter_acc (urgency_compare tz now) due_day (urgency_compare_neg tz now));
      [reflexivity|constructor].
Qed.

Lemma existsb_false_In {A} (f : A -> bool) l x : existsb f l = false -> List.In x l -> f x = false.
Proof.
  intros H Hx. destruct (f x) eqn:E; [|reflexivity].
  exfalso. assert (existsb f l = true) by (apply existsb_exists; eauto). congruence.
Qed.

Lemma first_status_spec tz now l :
  l <> [] ->
  let r := first_status tz now statusPriority l in
  (exists d, List.In d l /\ status_of tz now d = r) /\
  (forall d, List.In d l -> statusOrder r <= statusOrder (status_of tz now d)).
Proof.
  intros Hne. cbv zeta.
  assert (Hno : forall s, existsb (fun d => bool_decide (status_of tz now d = s)) l = false ->
                forall d, List.In d l -> status_of tz now d <> s).
  { intros s E d Hd Hs. pose proof (existsb_false_In _ _ _ E Hd) as F.
    rewrite bool_decide_eq_false in F. contradiction. }
  assert (Hyes : forall s, existsb (fun d => bool_decide (status_of tz now d = s)) l = true ->
                 exists d, List.In d l /\ status_of tz now d = s).
  { intros s E. apply existsb_exists in E as (d & Hd & E). rewrite bool_decide_eq_true in E. eauto. }
  unfold first_status, statusPriority.
  destruct (existsb (fun deadline => bool_decide (status_of tz now deadline = overdue)) l) eqn:E1;
    [split; [apply Hyes, E1|intros d _; destruct (status_of tz now d); simpl; lia]|].
  destruct (existsb (fun deadline => bool_decide (status_of tz now deadline = critical)) l) eqn:E2;
    [split; [apply Hyes, E2|intros d Hd; pose proof (Hno _ E1 d Hd);
       destruct (status_of tz now d); simpl; congruence || lia]|].
  destruct (existsb (fun deadline => bool_decide (status_of tz now deadline = urgent)) l) eqn:E3;
    [split; [apply Hyes, E3|intros d Hd; pose proof (Hno _ E1 d Hd); pose proof (Hno _ E2 d Hd);
       destruct (status_of tz now d); simpl; congruence || lia]|].
  destruct (existsb (fun deadline => bool_decide (status_of tz now deadline = warning)) l) eqn:E4;
    [split; [apply Hyes, E4|intros d Hd; pose proof (Hno _ E1 d Hd); pose proof (Hno _ E2 d Hd);
       pose proof (Hno _ E3 d Hd); destruct (status_of tz now d); simpl; congruence || lia]|].
  destruct (existsb (fun deadline => bool_decide (status_of tz now deadline = upcoming)) l) eqn:E5;
    [split; [apply Hyes, E5|intros d Hd; pose proof (Hno _ E1 d Hd); pose proof (Hno _ E2 d Hd);
       pose proof (Hno _ E3 d Hd); pose proof (Hno _ E4 d Hd);
       destruct (status_of tz now d); simpl; congruence || lia]|].
  assert (Hsafe : forall d, List.In d l -> status_of tz now d = safe).
  { intros d Hd. pose proof (Hno _ E1 d Hd); pose proof (Hno _ E2 d Hd);
      pose proof (Hno _ E3 d Hd); pose proof (Hno _ E4 d Hd); pose proof (Hno _ E5 d Hd).
    destruct (status_of tz now d); congruence. }
  destruct l as [|d0 l']; [congruence|].
  destruct (existsb (fun deadline => bool_decide (status_of tz now deadline = safe)) _);
    (split; [exists d0; split; [left; reflexivity|apply Hsafe; left; reflexivity]
            |intros d Hd; rewrite (Hsafe d Hd); simpl; lia]).
Qed.

(** Extra: [getOverallUrgency] is [safe] on an empty list; otherwise it is
    the status of some deadline and no deadline has a more urgent status;
    it is the status of the first deadline of [sortDeadlinesByUrgency]. *)
Theorem getOverallUrgency_most_urgent (tz now : Z) (deadlines : list UiDeadline) :
  (deadlines = [] -> getOverallUrgency tz now deadlines = safe) /\
  (deadlines <> [] ->
     (exists d, List.In d deadlines /\ status_of tz now d = getOverallUrgency tz now deadlines) /\
     (forall d, List.In d deadlines ->
        statusOrder (getOverallUrgency tz now deadlines) <= statusOrder (status_of tz now d))) /\
  (forall d rest, sortDeadlinesByUrgency tz now deadlines = d :: rest ->
     getOverallUrgency tz now deadlines = status_of tz now d).
Proof.
  assert (Hspec : deadlines <> [] ->
     (exists d, List.In d deadlines /\ status_of tz now d = getOverallUrgency tz now deadlines) /\
     (forall d, List.In d deadlines ->
        statusOrder (getOverallUrgency tz now deadlines) <= statusOrder (status_of tz now d))).
  { intros Hne. unfold getOverallUrgency.
    destruct deadlines as [|d0 l]; [congruence|]. simpl length. cbv iota beta.
    change ((S (length l) =? 0)%nat) with false. cbv iota.
    apply first_status_spec. exact Hne. }
  split; [intros ->; reflexivity|]. split; [exact Hspec|].
  intros d rest Hs.
  pose proof (sortDeadlinesByUrgency_perm tz now deadlines) as Hp. rewrite Hs in Hp.
  assert (Hd : List.In d deadlines) by (eapply Permutation_in; [exact Hp|left; reflexivity]).
  assert (Hne : deadlines <> []) by (intros ->; destruct Hd).
  destruct (Hspec Hne) as [(e & He & Hes) Hmin].
  pose proof (sortDeadlinesByUrgency_strongly_sorted tz now deadlines) as Hss. rewrite Hs in Hss.
  apply StronglySorted_inv in Hss as [_ Hf].
  assert (Hde : days_from_civil (ud_due_date d) <= days_from_civil (ud_due_date e)).
  { apply (Permutation_in _ (Permutation_sym Hp)) in He. destruct He as [<-|He]; [lia|].
    rewrite List.Forall_forall in Hf. exact (Hf e He). }
  assert (Hm : statusOrder (status_of tz now d) <= statusOrder (status_of tz now e))
    by (unfold status_of; apply statusOrder_le_days; exact Hde).
  specialize (Hmin d Hd).
  rewrite Hes in Hm. apply statusOrder_inj. lia.
Qed.

(* ================================================================== *)
(** ** Extra: grouping and counting deadlines *)

Lemma push_status_group g s' d s :
  status_group (push_status g s' d) s = status_group g s ++ (if decide (s' = s) then [d] else []).
Proof. destruct s', s; simpl; rewrite ?app_nil_r; reflexivity. Qed.

Lemma status_groups_acc (st : UiDeadline -> DeadlineStatus) l g s :
  status_group (fold_left (fun groups deadline => push_status groups (st deadline) deadline) l g) s
  = status_group g s ++ filter (fun d => st d = s) l.
Proof.
  revert g. induction l as [|d l IH]; intros g; cbn [fold_left]; [rewrite filter_nil, app_nil_r; reflexivity|].
  rewrite IH, push_status_group, filter_cons, <- app_assoc.
  destruct (decide (st d = s)); reflexivity.
Qed.

Lemma groupDeadlinesByStatus_group tz now deadlines s :
  status_group (groupDeadlinesByStatus tz now deadlines) s
  = filter (fun d => status_of tz now d = s) deadlines.
Proof.
  unfold groupDeadlinesByStatus. rewrite (status_groups_acc (status_of tz now)). destruct s; reflexivity.
Qed.

(** Extra: each group of [groupDeadlinesByStatus] holds exactly the
    deadlines of that status, in input order. *)
Theorem groupDeadlinesByStatus_filter (tz now : Z) (deadlines : list UiDeadline) (s : DeadlineStatus) :
  status_group (groupDeadlinesByStatus tz now deadlines) s
  = filter (fun d => status_of tz now d = s) deadlines.
Proof. apply groupDeadlinesByStatus_group. Qed.

Lemma push_category_group g c' d c :
  category_group (push_category g c' d) c = category_group g c ++ (if decide (c' = c) then [d] else []).
Proof. destruct c', c; simpl; rewrite ?app_nil_r; reflexivity. Qed.

Lemma groupDeadlinesByCategory_acc l g c :
  category_group (fold_left (fun groups deadline => push_category groups (ud_category deadline) deadline) l g) c
  = category_group g c ++ filter (fun d => ud_category d = c) l.
Proof.
  revert g. induction l as [|d l IH]; intros g; simpl; [rewrite app_nil_r; reflexivity|].
  rewrite IH, push_category_group, filter_cons, <- app_assoc.
  destruct (decide (ud_category d = c)); reflexivity.
Qed.

Lemma sum_category_groups l :
  (length (filter (fun d => ud_category d = license) l) + length (filter (fun d => ud_category d = insurance) l)
   + length (filter (fun d => ud_category d = contract) l) + length (filter (fun d => ud_category d = personal) l)
   + length (filter (fun d => ud_category d = other) l) = length l)%nat.
Proof.
  induction l as [|d l IH]; [reflexivity|]. rewrite !filter_cons.
  destruct (ud_category d); simpl; lia.
Qed.

(** Extra: each group of [groupDeadlinesByCategory] holds exactly the
    deadlines of that category in input order, and the five groups together
    hold every deadline once. *)
Theorem groupDeadlinesByCategory_partition (deadlines : list UiDeadline) :
  (forall c, category_group (groupDeadlinesByCategory deadlines) c
             = filter (fun d => ud_category d = c) deadlines) /\
  (length (g_license (groupDeadlinesByCategory deadlines)) + length (g_insurance (groupDeadlinesByCategory deadlines))
   + length (g_contract (groupDeadlinesByCategory deadlines)) + length (g_personal (groupDeadlinesByCategory deadlines))
   + length (g_other (groupDeadlinesByCategory deadlines)) = length deadlines)%nat.
Proof.
  assert (H : forall c, category_group (groupDeadlinesByCategory deadlines) c
             = filter (fun d => ud_category d = c) deadlines).
  { intros c. unfold groupDeadlinesByCategory. rewrite groupDeadlinesByCategory_acc. destruct c; reflexivity. }
  split; [exact H|].
  rewrite <- (sum_category_groups deadlines).
  rewrite <- (H license), <- (H insurance), <- (H contract), <- (H personal), <- (H other). reflexivity.
Qed.

Lemma incr_count_of c s' s :
  count_of (incr_count c s') s = count_of c s + (if decide (s' = s) then 1 else 0).
Proof. destruct s', s; simpl; lia. Qed.

Lemma incr_count_total c s : c_total (incr_count c s) = c_total c.
Proof. destruct s; reflexivity. Qed.

Lemma counts_acc (st : UiDeadline -> DeadlineStatus) l c :
  let r := fold_left (fun counts deadline => incr_count counts (st deadline)) l c in
  c_total r = c_total c /\
  forall s, count_of r s = count_of c s + Z.of_nat (length (filter (fun d => st d = s) l)).
Proof.
  revert c. induction l as [|d l IH]; intros c; cbn [fold_left].
  { split; [reflexivity|intros; rewrite filter_nil; cbn [length Z.of_nat]; lia]. }
  destruct (IH (incr_count c (st d))) as [H1 H2].
  split; [rewrite H1; apply incr_count_total|].
  intros s. rewrite H2, incr_count_of, filter_cons.
  destruct (decide (st d = s)); cbn [length]; lia.
Qed.

Lemma sum_status_filters (st : UiDeadline -> DeadlineStatus) l :
  (length (filter (fun d => st d = overdue) l) + length (filter (fun d => st d = critical) l)
   + length (filter (fun d => st d = urgent) l) + length (filter (fun d => st d = warning) l)
   + length (filter (fun d => st d = upcoming) l) + length (filter (fun d => st d = safe) l)
   = length l)%nat.
Proof.
  induction l as [|d l IH]; [reflexivity|]. rewrite !filter_cons.
  destruct (st d); cbn [length decide decide_rel DeadlineStatus_eq_dec]; simpl; lia.
Qed.

(** Extra: each count of [getDeadlineCounts] is the size of the matching
    group of [groupDeadlinesByStatus], and [total] is the sum of the six
    status counts. *)
Theorem getDeadlineCounts_consistent (tz now : Z) (deadlines : list UiDeadline) :
  let counts := getDeadlineCounts tz now deadlines in
  (forall s, count_of counts s
             = Z.of_nat (length (status_group (groupDeadlinesByStatus tz now deadlines) s))) /\
  c_total counts = c_overdue counts + c_critical counts + c_urgent counts
                   + c_warning counts + c_upcoming counts + c_safe counts.
Proof.
  cbv zeta. unfold getDeadlineCounts.
  destruct (counts_acc (status_of tz now) deadlines
              (mkDeadlineCounts (Z.of_nat (length deadlines)) 0 0 0 0 0 0)) as [Ht Hs].
  split.
  - intros s. rewrite Hs, groupDeadlinesByStatus_group.
    destruct s; cbn [count_of c_overdue c_critical c_urgent c_warning c_upcoming c_safe]; lia.
  - rewrite Ht.
    pose proof (Hs overdue); pose proof (Hs critical); pose proof (Hs urgent);
    pose proof (Hs warning); pose proof (Hs upcoming); pose proof (Hs safe).
    cbn [count_of c_overdue c_critical c_urgent c_warning c_upcoming c_safe c_total] in *.
    pose proof (sum_status_filters (status_of tz now) deadlines). lia.
Qed.

(* ================================================================== *)
(** ** Extra: dispatcher counters and reminder subject *)

Lemma filter_bool_split {A} (f g : A -> bool) l :
  (length (filter (fun x => f x = false) l) + length (filter (fun x => f x && g x = true) l)
   <= length l)%nat.
Proof.
  induction l as [|x l IH]; [simpl; lia|]. rewrite !filter_cons.
  destruct (f x), (g x); simpl;
    repeat (first [rewrite decide_True by reflexivity | rewrite decide_False by discriminate]);
    simpl; lia.
Qed.

Section DispatcherCounts.
Variable now : Z.
Variable profile_of : string -> option Profile.
Variable sendReminderEmail : string -> string -> Deadline -> Z -> bool.
Variable update_ok : string -> bool.

Lemma process_deadline_counters s dl :
  let should := shouldSendReminder (getDaysUntilDeadline now (dl_due_date dl))
                  (dl_last_reminder_sent dl) now in
  let accepted := match profile_of (dl_user_id dl) with
                  | Some p => sendReminderEmail (pr_email p) (pr_name p) dl
                                (getDaysUntilDeadline now (dl_due_date dl))
                  | None => false
                  end in
  let s' := process_deadline now profile_of sendReminderEmail update_ok s dl in
  ds_skipped s' = (ds_skipped s + if should then 0 else 1)%nat /\
  ds_sent s' = (ds_sent s + if should && accepted then 1 else 0)%nat.
Proof.
  cbv zeta. unfold process_deadline. cbv zeta.
  destruct (shouldSendReminder _ _ _); simpl; [|lia].
  destruct (profile_of (dl_user_id dl)) as [p|]; simpl; [|lia].
  destruct (sendReminderEmail _ _ _ _); simpl; lia.
Qed.

(** Extra: the dispatcher loop counts as skipped exactly the deadlines
    outside a reminder window (or reminded within 24 hours), and as sent
    exactly those whose email the provider accepted, whether the
    [last_reminder_sent] update failed or not; deadlines with no profile
    are in neither count. *)
Theorem dispatch_counters (deadlines : list Deadline) (s : DispatchState) :
  let final := dispatch now profile_of sendReminderEmail update_ok deadlines s in
  let should dl := shouldSendReminder (getDaysUntilDeadline now (dl_due_date dl))
                     (dl_last_reminder_sent dl) now in
  let accepted dl := match profile_of (dl_user_id dl) with
                     | Some p => sendReminderEmail (pr_email p) (pr_name p) dl
                                   (getDaysUntilDeadline now (dl_due_date dl))
                     | None => false
                     end in
  ds_skipped final = (ds_skipped s + length (filter (fun dl => should dl = false) deadlines))%nat /\
  ds_sent final = (ds_sent s + length (filter (fun dl => should dl && accepted dl = true) deadlines))%nat /\
  (ds_sent final + ds_skipped final <= ds_sent s + ds_skipped s + length deadlines)%nat.
Proof.
  cbv zeta.
  match goal with |- context [filter (fun dl => ?F dl = false)] =>
    set (should := F) end.
  match goal with |- context [filter (fun dl => should dl && ?G dl = true)] =>
    set (accepted := G) end.
  assert (Hstep : forall s0 dl,
    ds_skipped (process_deadline now profile_of sendReminderEmail update_ok s0 dl)
      = (ds_skipped s0 + if should dl then 0 else 1)%nat /\
    ds_sent (process_deadline now profile_of sendReminderEmail update_ok s0 dl)
      = (ds_sent s0 + if should dl && accepted dl then 1 else 0)%nat)
    by (intros s0 dl; exact (process_deadline_counters s0 dl)).
  clearbody should accepted.
  assert (Hc : forall s, ds_skipped (dispatch now profile_of sendReminderEmail update_ok deadlines s)
                = (ds_skipped s + length (filter (fun dl => should dl = false) deadlines))%nat /\
              ds_sent (dispatch now profile_of sendReminderEmail update_ok deadlines s)
                = (ds_sent s + length (filter (fun dl => should dl && accepted dl = true) deadlines))%nat).
  { unfold dispatch. induction deadlines as [|dl rest IH]; intros s0; cbn [fold_left].
    { rewrite !filter_nil. cbn [length]. lia. }
    destruct (IH (process_deadline now profile_of sendReminderEmail update_ok s0 dl)) as [H1 H2].
    destruct (Hstep s0 dl) as [K1 K2].
    rewrite H1, H2, K1, K2, !filter_cons.
    destruct (should dl), (accepted dl); cbn [andb];
      repeat (first [rewrite decide_True by reflexivity | rewrite decide_False by discriminate]);
      cbn [length]; lia. }
  destruct (Hc s) as [H1 H2]. split; [exact H1|]. split; [exact H2|].
  pose proof (filter_bool_split should accepted deadlines). lia.
Qed.
End DispatcherCounts.

Lemma shouldSendReminder_at_window d last now :
  shouldSendReminder d last now = true -> List.In d REMINDER_WINDOWS.
Proof.
  unfold shouldSendReminder. cbv zeta.
  destruct (existsb _ REMINDER_WINDOWS) eqn:E; simpl; [|discriminate].
  intros _. apply existsb_exists in E as (w & Hw & Hh). apply window_hit in Hh. subst. exact Hw.
Qed.

(** Extra: when a reminder is sent, its subject says "TODAY" exactly for
    the 1-day window, "URGENT" exactly for the 3-day window, and
    "Upcoming" for the 7-, 14- and 30-day windows. *)
Theorem reminder_urgencyText (daysUntil : Z) (lastReminderSent : option Z) (now : Z)
    (Hsend : shouldSendReminder daysUntil lastReminderSent now = true) :
  (urgencyText daysUntil = "TODAY" <-> daysUntil = 1) /\
  (urgencyText daysUntil = "URGENT" <-> daysUntil = 3) /\
  (urgencyText daysUntil = "Upcoming" <-> daysUntil = 7 \/ daysUntil = 14 \/ daysUntil = 30).
Proof.
  apply shouldSendReminder_at_window in Hsend. unfold REMINDER_WINDOWS in Hsend.
  repeat (destruct Hsend as [<-|Hsend]; [vm_compute; repeat split; intros; try discriminate; try lia; try reflexivity|]).
  destruct Hsend.
Qed.

(* ================================================================== *)
(** ** Extra: rate limit over a day *)




(* ================================================================== *)
(** ** Extra: webhook updates of the subscriptions table *)

Lemma exec_ops_rows_acc ops rows res :
  fst (fold_left (fun acc op => let '(rs, res) := acc in
                                let '(rs', r) := exec_op rs op in (rs', res ++ [r]))
                 ops (rows, res))
  = fold_left (fun rs op => fst (exec_op rs op)) ops rows.
Proof.
  revert rows res. induction ops as [|op ops IH]; intros rows res; simpl; [reflexivity|].
  destruct (exec_op rows op) as [rs' r] eqn:E. simpl. apply IH.
Qed.

Lemma exec_ops_rows rows ops :
  fst (exec_ops rows ops) = fold_left (fun rs op => fst (exec_op rs op)) ops rows.
Proof. apply exec_ops_rows_acc. Qed.

Lemma sql_update_keys rows sid p : map row_key (sql_update rows sid p) = map row_key rows.
Proof.
  unfold sql_update. rewrite map_map. apply map_ext. intros r.
  case_bool_decide; reflexivity.
Qed.

Lemma sql_update_other rows sid p i r :
  rows !! i = Some r -> row_stripe_subscription_id r <> Some sid ->
  sql_update rows sid p !! i = Some r.
Proof.
  intros Hi Hne. unfold sql_update. rewrite list_lookup_fmap, Hi. simpl.
  rewrite bool_decide_false by exact Hne. reflexivity.
Qed.

(** An update either fails on an enum value and leaves the table alone, or
    is [sql_update]: rows keep their keys, and rows of other subscriptions
    are unchanged. *)
Lemma update_keeps rows sid p :
  let rows' := fst (exec_op rows (UpdateBySubscriptionId sid p)) in
  map row_key rows' = map row_key rows /\
  (forall i r, rows !! i = Some r ->
     row_stripe_subscription_id r = None \/ row_stripe_subscription_id r <> Some sid ->
     rows' !! i = Some r).
Proof.
  cbv zeta. unfold exec_op.
  destruct (enum_ok plan_tier_labels (p_plan_tier p) && enum_ok subscription_status_labels (p_status p));
    cbn [fst]; [|split; auto].
  split; [apply sql_update_keys|]. intros i r Hi Hr. apply sql_update_other; [exact Hi|].
  destruct Hr as [-> | Hr]; [discriminate|exact Hr].
Qed.


(** Extra: a webhook event never adds, removes or reorders rows, never
    changes a row's user or subscription id, and leaves unchanged every row
    whose subscription id is not the one the event names. *)
Theorem webhook_keeps_rows (env : PriceEnv) (retrieve : string -> StripeSubscription)
    (profile_by_customer : string -> bool) (now_ms : Z) (ev : StripeEvent) (rows : list SubRow) :
  let rows' := fst (exec_ops rows (handle_event env retrieve profile_by_customer now_ms ev)) in
  map (fun r => (row_user_id r, row_stripe_subscription_id r)) rows'
    = map (fun r => (row_user_id r, row_stripe_subscription_id r)) rows /\
  (forall i r, rows !! i = Some r ->
     row_stripe_subscription_id r = None \/ row_stripe_subscription_id r <> event_subscription_id ev ->
     rows' !! i = Some r).
Proof.
  cbv zeta. rewrite !exec_ops_rows. change (fun r => (row_user_id r, row_stripe_subscription_id r)) with row_key.
  destruct ev as [mu sid|sub|sub|isid|isid reason|ty]; cbn [handle_event event_subscription_id].
  - destruct (truthy mu); simpl; split; auto.
  - destruct (truthy (s_metadata_user sub)); cbn [fold_left]; [apply update_keeps|].
    destruct (profile_by_customer (s_customer sub)); cbn [fold_left fst exec_op];
      [apply update_keeps|split; auto].
  - cbn [fold_left]. apply update_keeps.
  - destruct isid as [sid|]; cbn [truthy]; [|split; auto].
    case_bool_decide as He; cbn [fold_left]; [split; auto|]. apply update_keeps.
  - destruct isid as [sid|]; cbn [truthy]; [|split; auto].
    case_bool_decide as He; [split; auto|].
    case_bool_decide; cbn [fold_left]; [apply update_keeps|split; auto].
  - split; auto.
Qed.

(* ================================================================== *)
(** ** Extra: invoice and cancellation events, plan tiers *)

(** Extra: [invoice.payment_failed] sets the status of the rows of its
    subscription to past_due, [invoice.payment_succeeded] with billing
    reason subscription_cycle sets it to active (any other reason changes
    nothing), and [customer.subscription.deleted] sets it to canceled. *)
Theorem webhook_invoice_and_cancel_status (env : PriceEnv) (retrieve : string -> StripeSubscription)
    (profile_by_customer : string -> bool) (now_ms : Z) (rows : list SubRow) :
  let run ev := fst (exec_ops rows (handle_event env retrieve profile_by_customer now_ms ev)) in
  let set_status sid st :=
    map (fun r => if bool_decide (row_stripe_subscription_id r = Some sid)
                  then mkSubRow (row_user_id r) (row_stripe_subscription_id r)
                         (row_stripe_price_id r) (row_plan_tier r) st
                  else r) rows in
  (forall sid, sid <> "" -> run (InvoicePaymentFailed (Some sid)) = set_status sid "past_due") /\
  (forall sid, sid <> "" -> run (InvoicePaymentSucceeded (Some sid) "subscription_cycle") = set_status sid "active") /\
  (forall sid reason, reason <> "subscription_cycle" -> run (InvoicePaymentSucceeded sid reason) = rows) /\
  (forall sub, run (CustomerSubscriptionDeleted sub) = set_status (s_id sub) "canceled").
Proof.
  cbv zeta. split; [|split; [|split]].
  - intros sid Hs. rewrite exec_ops_rows. simpl. rewrite bool_decide_false by exact Hs. reflexivity.
  - intros sid Hs. rewrite exec_ops_rows. simpl. rewrite bool_decide_false by exact Hs. reflexivity.
  - intros sid reason Hr. rewrite exec_ops_rows. simpl. destruct (truthy sid); [|reflexivity].
    rewrite bool_decide_false by exact Hr. reflexivity.
  - intros sub. reflexivity.
Qed.

Lemma plan_tier_of_cases env priceId :
  plan_tier_of env priceId =
  let k := price_key priceId in
  if decide (default "" (env_team_yearly env) = k) then TierString "team"
  else if decide (default "" (env_team_monthly env) = k) then TierString "team"
  else if decide (default "" (env_pro_yearly env) = k) then TierString "pro"
  else if decide (default "" (env_pro_monthly env) = k) then TierString "pro"
  else if bool_decide (k = "__proto__") then TierPrototype
  else if bool_decide (k ∈ OBJECT_PROTOTYPE_KEYS) then TierMethod k
  else TierString "pro".
Proof.
  unfold plan_tier_of, PRICE_TO_TIER. cbv zeta. rewrite !lookup_insert, lookup_empty.
  repeat (destruct (decide _); [reflexivity|]). reflexivity.
Qed.

(** The plan-tier text of the webhook's bodies: absent (an inherited
    method), "pro", "team", or "{}" (the prototype object). *)
Lemma tier_json_plan_tier env priceId :
  tier_json (plan_tier_of env priceId) = None \/
  tier_json (plan_tier_of env priceId) = Some "pro" \/
  tier_json (plan_tier_of env priceId) = Some "team" \/
  tier_json (plan_tier_of env priceId) = Some "{}".
Proof.
  rewrite plan_tier_of_cases. cbv zeta.
  repeat (destruct (decide _); [simpl; auto|]).
  case_bool_decide; [simpl; auto|]. case_bool_decide; simpl; auto.
Qed.

(** An update whose plan-tier text is one of those leaves each row's plan
    tier "pro", "team" or as it was: "{}" is no label of [plan_tier]. *)
Lemma update_plan_tier rows sid p :
  (p_plan_tier p = None \/ p_plan_tier p = Some "pro" \/
   p_plan_tier p = Some "team" \/ p_plan_tier p = Some "{}") ->
  forall i r', fst (exec_op rows (UpdateBySubscriptionId sid p)) !! i = Some r' ->
  row_plan_tier r' = "pro" \/ row_plan_tier r' = "team" \/
  exists r, rows !! i = Some r /\ row_plan_tier r' = row_plan_tier r.
Proof.
  intros Hp i r'. unfold exec_op.
  destruct (enum_ok plan_tier_labels (p_plan_tier p) && enum_ok subscription_status_labels (p_status p))
    eqn:E; cbn [fst]; [|intros H; right; right; exists r'; auto].
  unfold sql_update. rewrite list_lookup_fmap.
  destruct (rows !! i) as [r|] eqn:Hi; cbn [fmap option_fmap option_map]; [|discriminate].
  intros H. injection H as <-.
  case_bool_decide; [|right; right; exists r; auto].
  unfold apply_patch. cbn [row_plan_tier].
  destruct Hp as [Hp|[Hp|[Hp|Hp]]]; rewrite Hp; cbn [default]; auto.
  - right; right; exists r; auto.
  - rewrite Hp in E. vm_compute in E. discriminate.
Qed.

(** Extra: the plan-tier text of every body the webhook sends is "pro",
    "team" or "{}" (for the price id "__proto__"); after the event every
    row's plan tier is "pro", "team" or the one it had, since "{}" makes
    the update fail and the checkout upsert never writes; and a price maps
    to "team" exactly when it equals the team monthly or yearly price id
    (the empty string when unset). *)
Theorem webhook_plan_tiers (env : PriceEnv) (retrieve : string -> StripeSubscription)
    (profile_by_customer : string -> bool) (now_ms : Z) (ev : StripeEvent) (rows : list SubRow) :
  let ops := handle_event env retrieve profile_by_customer now_ms ev in
  List.Forall (fun t => t = "pro" \/ t = "team" \/ t = "{}") (omap op_plan_tier ops) /\
  (forall i r', fst (exec_ops rows ops) !! i = Some r' ->
     row_plan_tier r' = "pro" \/ row_plan_tier r' = "team" \/
     exists r, rows !! i = Some r /\ row_plan_tier r' = row_plan_tier r) /\
  (forall priceId, plan_tier_of env priceId = TierString "team" <->
     price_key priceId = default "" (env_team_monthly env) \/
     price_key priceId = default "" (env_team_yearly env)).
Proof.
  cbv zeta. split; [|split].
  - destruct ev as [mu sid|sub|sub|isid|isid reason|ty]; cbn [handle_event].
    + destruct (truthy mu); [|constructor].
      destruct (tier_json_plan_tier env (s_price_id (retrieve sid))) as [E|[E|[E|E]]];
        simpl; rewrite E; first [apply List.Forall_nil | apply List.Forall_cons; [cbv beta; auto|apply List.Forall_nil]].
    + destruct (tier_json_plan_tier env (s_price_id sub)) as [E|[E|[E|E]]];
        destruct (truthy (s_metadata_user sub)); [| destruct (profile_by_customer (s_customer sub)) | |
          destruct (profile_by_customer (s_customer sub)) | | destruct (profile_by_customer (s_customer sub)) | |
          destruct (profile_by_customer (s_customer sub))];
        simpl; rewrite ?E; first [apply List.Forall_nil | apply List.Forall_cons; [cbv beta; auto|apply List.Forall_nil]].
    + constructor.
    + destruct (truthy isid); constructor.
    + destruct (truthy isid); [case_bool_decide|]; constructor.
    + constructor.
  - rewrite exec_ops_rows.
    destruct ev as [mu sid|sub|sub|isid|isid reason|ty]; cbn [handle_event].
    + destruct (truthy mu); simpl; intros i r' H; right; right; exists r'; auto.
    + destruct (truthy (s_metadata_user sub)); cbn [fold_left].
      * apply update_plan_tier. apply tier_json_plan_tier.
      * destruct (profile_by_customer (s_customer sub)); cbn [fold_left fst exec_op].
        -- apply update_plan_tier. apply tier_json_plan_tier.
        -- intros i r' H; right; right; exists r'; auto.
    + cbn [fold_left]. apply update_plan_tier. auto.
    + destruct (truthy isid); cbn [fold_left]; [apply update_plan_tier; auto|].
      intros i r' H; right; right; exists r'; auto.
    + destruct (truthy isid); [case_bool_decide|]; cbn [fold_left];
        first [apply update_plan_tier; auto | intros i r' Hi; right; right; exists r'; auto].
    + intros i r' H; right; right; exists r'; auto.
  - intros priceId. rewrite plan_tier_of_cases. cbv zeta.
    destruct (decide (default "" (env_team_yearly env) = price_key priceId));
    destruct (decide (default "" (env_team_monthly env) = price_key priceId));
    destruct (decide (default "" (env_pro_yearly env) = price_key priceId));
    destruct (decide (default "" (env_pro_monthly env) = price_key priceId));
    repeat case_bool_decide;
    split; intros Ht; try (destruct Ht as [Ht|Ht]); try congruence; auto.
Qed.

(* ================================================================== *)
(** ** Extra: plan limits *)

(** Extra: [can_create_deadline] allows a user without a profile or
    without an active or trialing subscription fewer than 5 deadlines, and
    always allows a user whose active or trialing subscriptions are all on
    a paid tier. *)
Theorem can_create_deadline_by_tier (profile_ids : list string) (subs : list PlanSubRow)
    (deadline_owners : list string) (user : string) :
  let count := Z.of_nat (length (filter (fun u => u = user) deadline_owners)) in
  ((~ List.In user profile_ids \/
    forall s, List.In s subs -> ps_user_id s = user -> is_active_or_trialing (ps_status s) = false) ->
   can_create_deadline profile_ids subs deadline_owners user = (count <? 5)) /\
  (List.In user profile_ids ->
   (exists s, List.In s subs /\ ps_user_id s = user /\ is_active_or_trialing (ps_status s) = true) ->
   (forall s, List.In s subs -> ps_user_id s = user -> is_active_or_trialing (ps_status s) = true ->
      ps_plan_tier s <> free) ->
   can_create_deadline profile_ids subs deadline_owners user = true).
Proof.
  cbv zeta. unfold can_create_deadline, plan_tier_rows.
  rewrite (list_filter_iff (fun u => Is_true (bool_decide (u = user))) (fun u => u = user))
    by (intros u; apply bool_decide_spec).
  split.
  - intros [Hp|Hs].
    + destruct (existsb _ profile_ids) eqn:E.
      * exfalso. apply existsb_exists in E as (p & Hin & Hb).
        apply bool_decide_eq_true in Hb. subst p. contradiction.
      * reflexivity.
    + destruct (existsb _ profile_ids); [|reflexivity].
      rewrite (filter_Forall_nil _ subs); [reflexivity|].
      apply List.Forall_forall. intros s Hin Hb. apply Is_true_true in Hb.
      apply andb_prop in Hb as [Hu Ha]. apply bool_decide_eq_true in Hu.
      rewrite (Hs s Hin Hu) in Ha. discriminate.
  - intros Hp (s0 & Hs0 & Hu0 & Ha0) Hpaid.
    destruct (existsb _ profile_ids) eqn:E.
    2:{ exfalso. assert (existsb (fun p => bool_decide (p = user)) profile_ids = true)
          by (apply existsb_exists; exists user; split; [exact Hp|apply bool_decide_eq_true; reflexivity]).
        congruence. }
    destruct (filter _ subs) as [|x rest] eqn:F.
    + exfalso. assert (Hx : s0 ∈ filter (fun s => Is_true (bool_decide (ps_user_id s = user)
                                  && is_active_or_trialing (ps_status s))) subs).
      { apply list_elem_of_filter. split; [apply Is_true_true; rewrite Hu0, Ha0; rewrite bool_decide_eq_true_2 by reflexivity; reflexivity|].
        apply list_elem_of_In. exact Hs0. }
      rewrite F in Hx. inversion Hx.
    + assert (Hx : x ∈ filter (fun s => Is_true (bool_decide (ps_user_id s = user)
                                  && is_active_or_trialing (ps_status s))) subs)
        by (rewrite F; left).
      apply list_elem_of_filter in Hx as [Hb Hin]. apply list_elem_of_In in Hin.
      apply Is_true_true in Hb. apply andb_prop in Hb as [Hu Ha]. apply bool_decide_eq_true in Hu.
      specialize (Hpaid x Hin Hu Ha). simpl.
      destruct (ps_plan_tier x); [congruence|reflexivity|reflexivity|reflexivity].
Qed.

(* ================================================================== *)
(** ** Extra: checkout session *)

Lemma default_truthy (o : option string) :
  negb (bool_decide (default "" o = "")) = true <-> truthy o <> None.
Proof.
  destruct o as [s|]; simpl; [|split; [discriminate|congruence]].
  case_bool_decide; simpl; split; congruence.
Qed.

(** [PRICE_IDS[priceKey]] is truthy exactly for the four plan keys whose
    price id is set and non-empty and for the inherited property names. *)
Lemma PRICE_IDS_truthy_iff (env : PriceEnv) (priceKey : string) :
  js_truthy (PRICE_IDS env priceKey) = true <->
  (priceKey = "pro_monthly" /\ truthy (env_pro_monthly env) <> None) \/
  (priceKey = "pro_yearly" /\ truthy (env_pro_yearly env) <> None) \/
  (priceKey = "team_monthly" /\ truthy (env_team_monthly env) <> None) \/
  (priceKey = "team_yearly" /\ truthy (env_team_yearly env) <> None) \/
  priceKey ∈ OBJECT_PROTOTYPE_KEYS.
Proof.
  unfold PRICE_IDS.
  case_bool_decide as H1; [subst; simpl; rewrite default_truthy;
    assert (~ "pro_monthly" ∈ OBJECT_PROTOTYPE_KEYS) by (apply (bool_decide_unpack _); vm_compute; exact I);
    intuition congruence|].
  case_bool_decide as H2; [subst; simpl; rewrite default_truthy;
    assert (~ "pro_yearly" ∈ OBJECT_PROTOTYPE_KEYS) by (apply (bool_decide_unpack _); vm_compute; exact I);
    intuition congruence|].
  case_bool_decide as H3; [subst; simpl; rewrite default_truthy;
    assert (~ "team_monthly" ∈ OBJECT_PROTOTYPE_KEYS) by (apply (bool_decide_unpack _); vm_compute; exact I);
    intuition congruence|].
  case_bool_decide as H4; [subst; simpl; rewrite default_truthy;
    assert (~ "team_yearly" ∈ OBJECT_PROTOTYPE_KEYS) by (apply (bool_decide_unpack _); vm_compute; exact I);
    intuition congruence|].
  case_bool_decide as H5; simpl; intuition congruence.
Qed.

Section CheckoutFacts.
Variable env : PriceEnv.
Variable getUser : string -> option AuthUser.
Variable profile_of : string -> option CheckoutProfile.
Variable customers_create : string -> option string -> string -> string + string.
Variable sessions_create : string -> JsLookup -> string -> string + string.

(** Extra: a non-preflight checkout request without an authorization
    header, with a header no user matches, or with an unknown price key is
    rejected with its error before any Stripe or database side effect. *)
Theorem checkout_rejects_before_side_effects (method : string) (authHeader : option string)
    (body : string + string) (Hm : method <> "OPTIONS") :
  let serve := checkout_serve env getUser profile_of customers_create sessions_create method authHeader body in
  (truthy authHeader = None -> serve = (CheckoutError "No authorization header", [])) /\
  (forall h, truthy authHeader = Some h -> getUser h = None ->
     serve = (CheckoutError "Unauthorized", [])) /\
  (forall h user priceKey, truthy authHeader = Some h -> getUser h = Some user ->
     body = inr priceKey -> js_truthy (PRICE_IDS env priceKey) = false ->
     serve = (CheckoutError ("Invalid price key: " +:+ priceKey), [])).
Proof.
  cbv zeta. unfold checkout_serve. rewrite bool_decide_false by exact Hm.
  split; [intros ->; reflexivity|]. split.
  - intros h -> Hu. rewrite Hu. reflexivity.
  - intros h user k -> Hu -> Hk. rewrite Hu, Hk. reflexivity.
Qed.

(** Extra: a successful checkout request came from an authenticated user
    with a valid price key; it creates one session, and it creates a Stripe
    customer and records it on the profile exactly when the profile had no
    customer id. *)
Theorem checkout_success_customer (method : string) (authHeader : option string)
    (body : string + string) (sessionId : string) (effects : list CheckoutEffect)
    (Hok : checkout_serve env getUser profile_of customers_create sessions_create
             method authHeader body = (CheckoutOk sessionId, effects)) :
  exists h user priceKey customerId,
    truthy authHeader = Some h /\ getUser h = Some user /\ body = inr priceKey /\
    js_truthy (PRICE_IDS env priceKey) = true /\
    let existing := truthy (match profile_of (au_id user) with
                            | Some p => cp_stripe_customer_id p | None => None end) in
    let name := truthy (match profile_of (au_id user) with
                        | Some p => cp_name p | None => None end) in
    let session := CreateSession customerId (PRICE_IDS env priceKey) (au_id user) in
    (existing = Some customerId /\ effects = [session]) \/
    (existing = None /\
     effects = [CreateCustomer (au_email user) name (au_id user);
                UpdateProfileCustomer (au_id user) customerId; session]).
Proof.
  unfold checkout_serve in Hok.
  case_bool_decide; [discriminate|].
  destruct (truthy authHeader) as [h|]; [|discriminate].
  destruct (getUser h) as [user|] eqn:Hu; [|discriminate].
  destruct body as [msg|k]; [discriminate|].
  destruct (js_truthy (PRICE_IDS env k)) eqn:Hk; simpl in Hok; [|discriminate].
  destruct (truthy (match profile_of (au_id user) with
                    | Some p => cp_stripe_customer_id p | None => None end)) as [c|] eqn:He.
  - unfold checkout_session in Hok.
    destruct (sessions_create c (PRICE_IDS env k) (au_id user)); [discriminate|].
    injection Hok as _ <-. exists h, user, k, c. repeat split; auto.
  - destruct (customers_create _ _ _) as [msg|c]; [discriminate|].
    unfold checkout_session in Hok.
    destruct (sessions_create c (PRICE_IDS env k) (au_id user)); [discriminate|].
    injection Hok as _ <-. exists h, user, k, c. repeat split; auto.
Qed.

(** Extra: for an authenticated, non-preflight request whose Stripe calls
    succeed, [checkout_serve] answers with a session exactly when the
    price key is one of the four plan keys whose price id is set and
    non-empty, or the name of a property every JS object inherits from
    [Object.prototype]; every other key is refused. *)
Theorem checkout_accepts_price_key (method : string) (authHeader : option string)
    (h : string) (user : AuthUser) (priceKey : string)
    (Hm : method <> "OPTIONS") (Hh : truthy authHeader = Some h) (Hu : getUser h = Some user)
    (Hcust : forall e n u, exists c, customers_create e n u = inr c)
    (Hsess : forall c p u, exists sid, sessions_create c p u = inr sid) :
  (exists sid effects,
     checkout_serve env getUser profile_of customers_create sessions_create
       method authHeader (inr priceKey) = (CheckoutOk sid, effects)) <->
  (priceKey = "pro_monthly" /\ truthy (env_pro_monthly env) <> None) \/
  (priceKey = "pro_yearly" /\ truthy (env_pro_yearly env) <> None) \/
  (priceKey = "team_monthly" /\ truthy (env_team_monthly env) <> None) \/
  (priceKey = "team_yearly" /\ truthy (env_team_yearly env) <> None) \/
  priceKey ∈ OBJECT_PROTOTYPE_KEYS.
Proof.
  rewrite <- PRICE_IDS_truthy_iff. unfold checkout_serve.
  rewrite bool_decide_false by exact Hm. rewrite Hh, Hu.
  destruct (js_truthy (PRICE_IDS env priceKey)); cbn [negb].
  - split; [reflexivity|intros _]. unfold checkout_session.
    lazymatch goal with
    | |- context [match truthy ?x with Some _ => _ | None => _ end] =>
        destruct (truthy x) as [c|]
    end.
    + destruct (Hsess c (PRICE_IDS env priceKey) (au_id user)) as [sid Hs]. rewrite Hs. eauto.
    + lazymatch goal with
      | |- context [customers_create ?e ?n ?u] => destruct (Hcust e n u) as [c Hc]; rewrite Hc
      end.
      destruct (Hsess c (PRICE_IDS env priceKey) (au_id user)) as [sid Hs]. rewrite Hs. eauto.
  - split; [intros (sid & effects & Hs); discriminate|discriminate].
Qed.
End CheckoutFacts.

(* ================================================================== *)
(** ** Extra: the reminder run's fetch *)

Section ReminderFetch.
Variable now : Z.
Variable profile_of : string -> option Profile.
Variable sendReminderEmail : string -> string -> Deadline -> Z -> bool.
Variable update_ok : string -> bool.

Lemma process_deadline_changed s dl i :
  ds_last_sent (process_deadline now profile_of sendReminderEmail update_ok s dl) !! i
    <> ds_last_sent s !! i ->
  dl_id dl = i /\
  shouldSendReminder (getDaysUntilDeadline now (dl_due_date dl)) (dl_last_reminder_sent dl) now = true.
Proof.
  unfold process_deadline. cbv zeta.
  destruct (shouldSendReminder _ _ _) eqn:Es; simpl; [|congruence].
  destruct (profile_of (dl_user_id dl)); [|congruence].
  destruct (sendReminderEmail _ _ _ _); simpl; [|congruence].
  destruct (update_ok (dl_id dl)); [|congruence].
  destruct (decide (dl_id dl = i)) as [<-|Hne]; [auto|].
  rewrite lookup_alter_ne by exact Hne. congruence.
Qed.

Lemma dispatch_changed deadlines s i :
  ds_last_sent (dispatch now profile_of sendReminderEmail update_ok deadlines s) !! i
    <> ds_last_sent s !! i ->
  exists dl, List.In dl deadlines /\ dl_id dl = i /\
  shouldSendReminder (getDaysUntilDeadline now (dl_due_date dl)) (dl_last_reminder_sent dl) now = true.
Proof.
  revert s. induction deadlines as [|dl rest IH]; intros s H; simpl in *; [congruence|].
  unfold dispatch in IH, H. simpl in H.
  destruct (decide (ds_last_sent (process_deadline now profile_of sendReminderEmail update_ok s dl) !! i
                    = ds_last_sent s !! i)) as [E|E].
  - rewrite <- E in H. destruct (IH _ H) as (dl' & ? & ? & ?). exists dl'. auto.
  - destruct (process_deadline_changed s dl i E). exists dl. auto.
Qed.

(** Extra: a reminder run never marks a deadline due today (UTC) or
    earlier as reminded: past ones are not fetched and ones due today are
    outside every reminder window. *)
Theorem reminders_skip_due_today_or_past (table : list Deadline) (last_sent : gmap string (option Z))
    (Hids : NoDup (map dl_id table)) :
  let run := reminders_serve now profile_of sendReminderEmail update_ok table last_sent in
  forall dl, List.In dl table -> days_from_civil (dl_due_date dl) <= now / MS_PER_DAY ->
    ds_last_sent (rr_state run) !! dl_id dl = last_sent !! dl_id dl /\
    (days_from_civil (dl_due_date dl) < now / MS_PER_DAY ->
       ~ List.In dl (filter (fun dl => now / MS_PER_DAY <= days_from_civil (dl_due_date dl)) table)) /\
    (days_from_civil (dl_due_date dl) = now / MS_PER_DAY ->
       shouldSendReminder (getDaysUntilDeadline now (dl_due_date dl)) (dl_last_reminder_sent dl) now = false).
Proof.
  cbv zeta. intros dl Hin Hday.
  assert (H0 : days_from_civil (dl_due_date dl) = now / MS_PER_DAY ->
       shouldSendReminder (getDaysUntilDeadline now (dl_due_date dl)) (dl_last_reminder_sent dl) now = false).
  { intros Hd. rewrite getDaysUntilDeadline_floor, Hd, Z.sub_diag. reflexivity. }
  split; [|split; [|exact H0]].
  - unfold reminders_serve. simpl.
    destruct (decide (ds_last_sent (dispatch now profile_of sendReminderEmail update_ok
               (filter (fun dl => now / MS_PER_DAY <= days_from_civil (dl_due_date dl)) table)
               (mkDispatchState last_sent 0 0)) !! dl_id dl = last_sent !! dl_id dl)) as [E|E]; [exact E|].
    exfalso. destruct (dispatch_changed _ _ _ E) as (dl' & Hin' & Hid & Hs).
    apply list_elem_of_In, list_elem_of_filter in Hin' as [Hge Hin'].
    apply list_elem_of_In in Hin'.
    assert (dl' = dl) as -> by (eapply NoDup_map_same_key; eauto).
    rewrite H0 in Hs by lia. discriminate.
  - intros Hlt Hf. apply list_elem_of_In, list_elem_of_filter in Hf as [Hge _]. lia.
Qed.
End ReminderFetch.

(* ================================================================== *)
(** ** Extra: the due-date label *)

Lemma append_String c s t : String c s +:+ t = String c (s +:+ t).
Proof. reflexivity. Qed.

Lemma list_ascii_of_string_append s t :
  String.list_ascii_of_string (s +:+ t) = String.list_ascii_of_string s ++ String.list_ascii_of_string t.
Proof. induction s as [|c s IH]; [reflexivity|]. rewrite append_String. simpl. rewrite IH. reflexivity. Qed.

Lemma append_assoc_str s t u : s +:+ (t +:+ u) = (s +:+ t) +:+ u.
Proof. induction s as [|c s IH]; [reflexivity|]. rewrite !append_String, IH. reflexivity. Qed.


Lemma last_char_append s t : t <> EmptyString -> last_char (s +:+ t) = last_char t.
Proof.
  intros Ht. unfold last_char. rewrite list_ascii_of_string_append, rev_app_distr.
  destruct t as [|c t]; [congruence|]. simpl.
  destruct (rev (String.list_ascii_of_string t)); reflexivity.
Qed.

(** Extra: [formatDaysUntilDue] ends in " overdue" exactly when
    [getDeadlineStatus] says overdue, and says "Due today" and "Due tomorrow"
    exactly at 0 and 1 days. *)
Theorem formatDaysUntilDue_labels (tz now : Z) (dueDate : date) (lvl : option ConsequenceLevel) :
  let label := formatDaysUntilDue tz now dueDate in
  ((exists p, label = p +:+ " overdue") <-> getDeadlineStatus tz now dueDate lvl = overdue) /\
  (label = "Due today" <-> getDaysUntilDue tz now dueDate = 0) /\
  (label = "Due tomorrow" <-> getDaysUntilDue tz now dueDate = 1).
Proof.
  cbv zeta. unfold formatDaysUntilDue, getDeadlineStatus. cbv zeta.
  set (d := getDaysUntilDue tz now dueDate).
  assert (Hov : forall s, s +:+ " overdue" <> "Due today" /\ s +:+ " overdue" <> "Due tomorrow").
  { intros s; split; intros E; apply (f_equal last_char) in E;
      rewrite last_char_append in E by discriminate; discriminate. }
  assert (Hdays : forall p s, s +:+ " days" <> p +:+ " overdue").
  { intros p s E. apply (f_equal last_char) in E.
    rewrite !last_char_append in E by discriminate; discriminate. }
  destruct (d <? 0) eqn:Hneg.
  - apply Z.ltb_lt in Hneg.
    set (s := pretty (Z.abs d) +:+ " day" +:+ (if negb (Z.abs d =? 1) then "s" else "")).
    assert (Es : pretty (Z.abs d) +:+ " day" +:+ (if negb (Z.abs d =? 1) then "s" else "") +:+ " overdue"
                 = s +:+ " overdue").
    { unfold s. rewrite !append_assoc_str. reflexivity. }
    rewrite Es. destruct (Hov s) as [H1 H2].
    split; [split; [intros _; reflexivity | intros _; eauto]|].
    split; split; intros E; try congruence; lia.
  - apply Z.ltb_ge in Hneg.
    destruct (d =? 0) eqn:H0; [apply Z.eqb_eq in H0 | apply Z.eqb_neq in H0].
    + rewrite H0. simpl. split; [split; [intros [p Hp]; exfalso; exact (proj1 (Hov p) (eq_sym Hp)) | discriminate]|].
      split; split; intros; try reflexivity; try discriminate; lia.
    + destruct (d =? 1) eqn:H1; [apply Z.eqb_eq in H1 | apply Z.eqb_neq in H1].
      * assert (Hc : (d <=? URGENCY_critical) = true) by (apply Z.leb_le; unfold URGENCY_critical; lia).
        rewrite Hc. split; [split; [intros [p Hp]; exfalso; exact (proj2 (Hov p) (eq_sym Hp)) | discriminate]|].
        split; split; intros; try reflexivity; try discriminate; lia.
      * assert (Hst : (if d <=? URGENCY_critical then critical else if d <=? URGENCY_urgent then urgent
                       else if d <=? URGENCY_warning then warning else if d <=? URGENCY_upcoming then upcoming
                       else safe) <> overdue)
          by (repeat case_match; discriminate).
        split; [split; [intros [p Hp]; exfalso; exact (Hdays _ _ Hp) | intros E; exfalso; exact (Hst E)]|].
        split; split; intros E; try lia.
        -- apply (f_equal last_char) in E. rewrite last_char_append in E by discriminate. discriminate.
        -- apply (f_equal last_char) in E. rewrite last_char_append in E by discriminate. discriminate.
Qed.

(* ================================================================== *)
(** ** Witnesses of the extra properties *)

Lemma checkout_accepts_price_key_witness :
  let env := mkPriceEnv (Some "price_pm") None None None in
  let getUser := fun _ : string => Some (mkAuthUser "user_1" "a@example.com") in
  let cc := fun (_ : string) (_ : option string) (_ : string) => @inr string string "cus_1" in
  let sc := fun (_ : string) (_ : JsLookup) (_ : string) => @inr string string "cs_1" in
  "POST" <> "OPTIONS" /\ truthy (Some "Bearer t") = Some "Bearer t" /\
  getUser "Bearer t" = Some (mkAuthUser "user_1" "a@example.com") /\
  (forall e n u, exists c, cc e n u = inr c) /\
  (forall c p u, exists sid, sc c p u = inr sid) /\
  ((exists sid effects,
      checkout_serve env getUser (fun _ => None) cc sc "POST" (Some "Bearer t")
        (inr "team_monthly") = (CheckoutOk sid, effects)) <->
   ("team_monthly" = "pro_monthly" /\ truthy (env_pro_monthly env) <> None) \/
   ("team_monthly" = "pro_yearly" /\ truthy (env_pro_yearly env) <> None) \/
   ("team_monthly" = "team_monthly" /\ truthy (env_team_monthly env) <> None) \/
   ("team_monthly" = "team_yearly" /\ truthy (env_team_yearly env) <> None) \/
   "team_monthly" ∈ OBJECT_PROTOTYPE_KEYS).
Proof.
  cbv zeta.
  assert (Hm : "POST" <> "OPTIONS") by discriminate.
  assert (Hh : truthy (Some "Bearer t") = Some "Bearer t") by reflexivity.
  assert (Hu : (fun _ : string => Some (mkAuthUser "user_1" "a@example.com")) "Bearer t"
               = Some (mkAuthUser "user_1" "a@example.com")) by reflexivity.
  assert (Hc : forall e n u, exists c,
             (fun (_ : string) (_ : option string) (_ : string) => @inr string string "cus_1") e n u
             = inr c) by (intros; eexists; reflexivity).
  assert (Hs : forall c p u, exists sid,
             (fun (_ : string) (_ : JsLookup) (_ : string) => @inr string string "cs_1") c p u
             = inr sid) by (intros; eexists; reflexivity).
  split; [exact Hm|]. split; [exact Hh|]. split; [exact Hu|]. split; [exact Hc|]. split; [exact Hs|].
  exact (checkout_accepts_price_key (mkPriceEnv (Some "price_pm") None None None)
           (fun _ => Some (mkAuthUser "user_1" "a@example.com")) (fun _ => None)
           _ _ "POST" (Some "Bearer t") "Bearer t" (mkAuthUser "user_1" "a@example.com")
           "team_monthly" Hm Hh Hu Hc Hs).
Defined.

Lemma statusOrder_monotone_witness :
  days_from_civil (mkDate 2026 10 20) <= days_from_civil (mkDate 2026 11 30) /\
  statusOrder (getDeadlineStatus 0 0 (mkDate 2026 10 20) (Some high))
    <= statusOrder (getDeadlineStatus 0 0 (mkDate 2026 11 30) None).
Proof.
  assert (H : days_from_civil (mkDate 2026 10 20) <= days_from_civil (mkDate 2026 11 30))
    by (apply Z.leb_le; vm_compute; reflexivity).
  split; [exact H|exact (statusOrder_monotone 0 0 _ _ (Some high) None H)].
Defined.

Lemma reminder_urgencyText_witness :
  shouldSendReminder 3 None 0 = true /\
  ((urgencyText 3 = "TODAY" <-> 3 = 1) /\
   (urgencyText 3 = "URGENT" <-> 3 = 3) /\
   (urgencyText 3 = "Upcoming" <-> 3 = 7 \/ 3 = 14 \/ 3 = 30)).
Proof.
  assert (H : shouldSendReminder 3 None 0 = true) by (vm_compute; reflexivity).
  split; [exact H|exact (reminder_urgencyText 3 None 0 H)].
Defined.


Lemma checkout_rejects_before_side_effects_witness :
  let env := mkPriceEnv None None None None in
  let getUser := fun _ : string => @None AuthUser in
  let profile_of := fun _ : string => @None CheckoutProfile in
  let customers_create := fun (_ : string) (_ : option string) (_ : string) => @inl string string "error" in
  let sessions_create := fun (_ : string) (_ : JsLookup) (_ : string) => @inl string string "error" in
  "POST" <> "OPTIONS" /\
  let serve := checkout_serve env getUser profile_of customers_create sessions_create
                 "POST" None (inr "pro_monthly") in
  (truthy None = None -> serve = (CheckoutError "No authorization header", [])) /\
  (forall h, truthy None = Some h -> getUser h = None ->
     serve = (CheckoutError "Unauthorized", [])) /\
  (forall h user priceKey, truthy None = Some h -> getUser h = Some user ->
     @inr string string "pro_monthly" = inr priceKey -> js_truthy (PRICE_IDS env priceKey) = false ->
     serve = (CheckoutError ("Invalid price key: " +:+ priceKey), [])).
Proof.
  cbv zeta.
  assert (Hm : "POST" <> "OPTIONS") by discriminate.
  split; [exact Hm|].
  exact (checkout_rejects_before_side_effects (mkPriceEnv None None None None)
           (fun _ => None) (fun _ => None) (fun _ _ _ => inl "error") (fun _ _ _ => inl "error")
           "POST" None (inr "pro_monthly") Hm).
Defined.

Lemma checkout_success_customer_witness :
  let env := mkPriceEnv (Some "price_pm") None None None in
  let getUser := fun _ : string => Some (mkAuthUser "u1" "a@example.com") in
  let profile_of := fun _ : string => Some (mkCheckoutProfile None None) in
  let customers_create := fun (_ : string) (_ : option string) (_ : string) => @inr string string "cus_1" in
  let sessions_create := fun (_ : string) (_ : JsLookup) (_ : string) => @inr string string "cs_1" in
  let effects := [CreateCustomer "a@example.com" None "u1"; UpdateProfileCustomer "u1" "cus_1";
                  CreateSession "cus_1" (JsString "price_pm") "u1"] in
  checkout_serve env getUser profile_of customers_create sessions_create
    "POST" (Some "Bearer t") (inr "pro_monthly") = (CheckoutOk "cs_1", effects) /\
  exists h user priceKey customerId,
    truthy (Some "Bearer t") = Some h /\ getUser h = Some user /\
    @inr string string "pro_monthly" = inr priceKey /\
    js_truthy (PRICE_IDS env priceKey) = true /\
    let existing := truthy (match profile_of (au_id user) with
                            | Some p => cp_stripe_customer_id p | None => None end) in
    let name := truthy (match profile_of (au_id user) with
                        | Some p => cp_name p | None => None end) in
    let session := CreateSession customerId (PRICE_IDS env priceKey) (au_id user) in
    (existing = Some customerId /\ effects = [session]) \/
    (existing = None /\
     effects = [CreateCustomer (au_email user) name (au_id user);
                UpdateProfileCustomer (au_id user) customerId; session]).
Proof.
  cbv zeta.
  assert (Hok : checkout_serve (mkPriceEnv (Some "price_pm") None None None)
                  (fun _ => Some (mkAuthUser "u1" "a@example.com"))
                  (fun _ => Some (mkCheckoutProfile None None))
                  (fun _ _ _ => inr "cus_1") (fun _ _ _ => inr "cs_1")
                  "POST" (Some "Bearer t") (inr "pro_monthly")
                = (CheckoutOk "cs_1", [CreateCustomer "a@example.com" None "u1";
                    UpdateProfileCustomer "u1" "cus_1"; CreateSession "cus_1" (JsString "price_pm") "u1"]))
    by (vm_compute; reflexivity).
  split; [exact Hok|].
  exact (checkout_success_customer _ _ _ _ _ _ _ _ _ _ Hok).
Defined.

Lemma reminders_skip_due_today_or_past_witness :
  let table := [mkDeadline "d1" (mkDate 1970 1 1) "u1" None] in
  NoDup (map dl_id table) /\
  let run := reminders_serve 0 (fun _ => None) (fun _ _ _ _ => true) (fun _ => true) table ∅ in
  forall dl, List.In dl table -> days_from_civil (dl_due_date dl) <= 0 / MS_PER_DAY ->
    ds_last_sent (rr_state run) !! dl_id dl = (∅ : gmap string (option Z)) !! dl_id dl /\
    (days_from_civil (dl_due_date dl) < 0 / MS_PER_DAY ->
       ~ List.In dl (filter (fun dl => 0 / MS_PER_DAY <= days_from_civil (dl_due_date dl)) table)) /\
    (days_from_civil (dl_due_date dl) = 0 / MS_PER_DAY ->
       shouldSendReminder (getDaysUntilDeadline 0 (dl_due_date dl)) (dl_last_reminder_sent dl) 0 = false).
Proof.
  cbv zeta.
  assert (Hnd : NoDup (map dl_id [mkDeadline "d1" (mkDate 1970 1 1) "u1" None]))
    by (simpl; apply NoDup_singleton).
  split; [exact Hnd|].
  exact (reminders_skip_due_today_or_past 0 (fun _ => None) (fun _ _ _ _ => true) (fun _ => true)
           _ ∅ Hnd).
Defined.
